(** * WaterFeature8: serial telemetry acquisition and the AWS IoT bridge

    A shallow embedding of [waterFeatLib.py] (class [WaterFeature8]) and
    [WFaws.py] (class [WaterFeature8IoT]), and the properties of the
    reading parser, the sampling gate, the command/response bridge and the
    telemetry publisher.

    Conventions of the embedding.
    - A Python [str] is the list of its Unicode code points ([pystr]).
    - A Python [float] carrying a sensor value is a binary64 number
      ([PrimFloat.float]); the builtin [float(...)] conversion of a token
      is a parameter [float_of_str] of the development ([None] stands for
      [ValueError]).
    - A clock reading of [time.time()] is a rational number of seconds
      since the epoch.  Every binary64 is a rational, and the gate only
      subtracts two readings and compares with 60.
    - Dictionaries with a fixed key set are records; dictionaries built
      key by key are insertion-ordered association lists ([dict]).
    - Calls on the two opaque transports (serial port, MQTT client) are
      recorded in the order they are made. *)

From Stdlib Require Import ZArith QArith Floats Lia Lqa String Ascii.
From stdpp Require Import base list.

Set Default Proof Using "Type".

(** ** Python strings *)

Abbreviation pystr := (list N).

(** An ASCII literal as a [pystr]. *)
Definition lit (s : string) : pystr :=
  map N_of_ascii (list_ascii_of_string s).

(** [str.isspace] on one code point (CPython's [_PyUnicode_IsWhitespace]). *)
Definition isspace (c : N) : bool :=
  ((9 <=? c) && (c <=? 13) || (28 <=? c) && (c <=? 32)
   || (c =? 133) || (c =? 160) || (c =? 5760)
   || (8192 <=? c) && (c <=? 8202)
   || (c =? 8232) || (c =? 8233) || (c =? 8239) || (c =? 8287)
   || (c =? 12288))%N.

Fixpoint lstrip (s : pystr) : pystr :=
  match s with
  | c :: s' => if isspace c then lstrip s' else s
  | [] => []
  end.

Definition rstrip (s : pystr) : pystr := rev (lstrip (rev s)).

(** [s.strip()] *)
Definition strip (s : pystr) : pystr := rstrip (lstrip s).

(** [s.split(sep)] for a one-character separator: never an empty list. *)
Fixpoint split (sep : N) (s : pystr) : list pystr :=
  match s with
  | [] => [[]]
  | c :: s' =>
      if (c =? sep)%N then [] :: split sep s'
      else match split sep s' with
           | p :: ps => (c :: p) :: ps
           | [] => [[c]]
           end
  end.

Definition comma : N := 44.

(** ** Insertion-ordered dictionaries *)

Abbreviation dict V := (list (pystr * V)).

(** [d[k] = v]: replaces the value of an existing key in place, appends a
    new key at the end. *)
Fixpoint dict_set {V} (k : pystr) (v : V) (d : dict V) : dict V :=
  match d with
  | [] => [(k, v)]
  | (k', v') :: d' =>
      if decide (k = k') then (k', v) :: d' else (k', v') :: dict_set k v d'
  end.

(** [d.get(k)] *)
Fixpoint dict_get {V} (k : pystr) (d : dict V) : option V :=
  match d with
  | [] => None
  | (k', v') :: d' => if decide (k = k') then Some v' else dict_get k d'
  end.

(** ** The data model of [waterFeatLib.py] *)

(** One entry of [parsed_data['variables']]. *)
Record Measurement := {
  value : float;
  unit : pystr;
  description : pystr;
  raw : pystr
}.

(** The dictionary [parsed_data] built by [parse_data_line]. *)
Record TelemetryRecord := {
  device_timestamp : pystr;
  local_timestamp : pystr;
  epoch_timestamp : Z;
  variables : dict Measurement;
  device_id : pystr;
  raw_line : pystr
}.

(** The two clock reads of [parse_data_line]:
    [datetime.datetime.now().isoformat()] and [time.time()]. *)
Record clock := {
  now_isoformat : pystr;
  time_time : Q
}.

(** [int(x)] on a clock reading: truncation toward zero. *)
Definition int_of_time (t : Q) : Z := Z.quot (Qnum t) (Z.pos (Qden t)).

Definition variable_labels : list pystr :=
  [lit "EC"; lit "RTD_EC"; lit "pH"; lit "RTD_pH"; lit "DO"; lit "RTD_DO";
   lit "ORP"].

(** ['μS/cm'] and ['°C'] start with the code points 956 and 176. *)
Definition variable_units : list pystr :=
  [956%N :: lit "S/cm"; 176%N :: lit "C"; lit "pH"; 176%N :: lit "C";
   lit "mg/L"; 176%N :: lit "C"; lit "mV"].

Definition variable_descriptions : list pystr :=
  [lit "Electrical Conductivity";
   lit "Temperature (EC compensation)";
   lit "pH Level";
   lit "Temperature (pH compensation)";
   lit "Dissolved Oxygen";
   lit "Temperature (DO compensation)";
   lit "Oxidation-Reduction Potential"].

Section Parser.

(** The builtin [float(s)] on a stripped, non-empty token: [None] is
    [ValueError]. *)
Variable float_of_str : pystr -> option float.

(** The body of the [for i, value in enumerate(raw_variables)] loop. *)
Definition parse_field (i : nat) (token : pystr)
    (vars : dict Measurement) : dict Measurement :=
  if bool_decide (i < length variable_labels) then
    let numeric_value :=
      match strip token with
      | [] => Some 0%float
      | _ :: _ => float_of_str (strip token)
      end in
    match numeric_value with
    | Some x =>
        dict_set (nth i variable_labels [])
          {| value := x;
             unit := nth i variable_units [];
             description := nth i variable_descriptions [];
             raw := strip token |} vars
    | None =>
        dict_set (nth i variable_labels [])
          {| value := 0%float;
             unit := nth i variable_units [];
             description := nth i variable_descriptions [];
             raw := strip token |} vars
    end
  else vars.

Fixpoint parse_fields (i : nat) (raw_variables : list pystr)
    (vars : dict Measurement) : dict Measurement :=
  match raw_variables with
  | [] => vars
  | token :: rest => parse_fields (S i) rest (parse_field i token vars)
  end.

(** [WaterFeature8.parse_data_line]: [None] is the Python [None]. *)
Definition parse_data_line (clk : clock) (line : pystr)
    : option TelemetryRecord :=
  let parts := split comma (strip line) in
  if bool_decide (length parts < 2) then None
  else
    match parts with
    | dev_ts :: raw_variables =>
        Some {| device_timestamp := dev_ts;
                local_timestamp := now_isoformat clk;
                epoch_timestamp := int_of_time (time_time clk);
                variables := parse_fields 0 raw_variables [];
                device_id := lit "WaterFeature8";
                raw_line := strip line |}
    | [] => None
    end.

End Parser.

(** ** The acquisition loop of [waterFeatLib.py] *)

(** The serial port object: whether it is open, and the byte strings
    handed to [write] so far. *)
Record SerialPort := {
  is_open : bool;
  written : list (list N)
}.

(** The fields of a [WaterFeature8] object.  A subscriber is a value of
    the parameter [Callback]; the loop's calls on subscribers are
    recorded as a trace. *)
Record WaterFeature8 {Callback : Type} := {
  port : pystr;
  baudrate : Z;
  serial_conn : option SerialPort;
  running : bool;
  data_callbacks : list Callback;
  latest_data : option TelemetryRecord
}.
Arguments WaterFeature8 : clear implicits.

(** What one cycle of the [while self.running] loop meets. *)
Inductive poll :=
| Stopped
    (* [self.running] read as [False] *)
| Idle
    (* [in_waiting == 0] *)
| Line (raw_line : pystr) (current_time : Q) (clk : clock)
    (* [readline().decode(...)] gave [raw_line], [time.time()] gave
       [current_time]; [clk] is what [parse_data_line] reads if called *)
| SerialError.
    (* [in_waiting] or [readline] raised [SerialException] *)

Section ReadLoop.

Variable float_of_str : pystr -> option float.
Context {Callback : Type}.

(** The object together with the local variable [last_sample_time]. *)
Record loop_state := {
  device : WaterFeature8 Callback;
  last_sample_time : Q
}.

(** One call [callback(parsed_data)]. *)
Definition call : Type := Callback * TelemetryRecord.

Definition set_latest_data (r : TelemetryRecord)
    (d : WaterFeature8 Callback) : WaterFeature8 Callback :=
  {| port := port d; baudrate := baudrate d; serial_conn := serial_conn d;
     running := running d; data_callbacks := data_callbacks d;
     latest_data := Some r |}.

(** [for callback in self.data_callbacks: callback(parsed_data)]; an
    exception of a callback is caught inside the [for] body. *)
Definition fan_out (d : WaterFeature8 Callback) (r : TelemetryRecord)
    : list call :=
  map (fun callback => (callback, r)) (data_callbacks d).

(** The body of the [if self.serial_conn.in_waiting > 0] branch, once a
    line has been read. *)
Definition on_line (raw_line : pystr) (current_time : Q) (clk : clock)
    (st : loop_state) : loop_state * list call :=
  match strip raw_line with
  | [] => (st, [])
  | _ :: _ =>
      if Qle_bool 60 (current_time - last_sample_time st) then
        match parse_data_line float_of_str clk raw_line with
        | Some parsed_data =>
            ({| device := set_latest_data parsed_data (device st);
                last_sample_time := current_time |},
             fan_out (device st) parsed_data)
        | None =>
            ({| device := device st; last_sample_time := current_time |}, [])
        end
      else (st, [])
  end.

(** One cycle: [None] when the loop is left ([running] false, or the
    [except serial.SerialException] arm with its [break]). *)
Definition read_cycle (p : poll) (st : loop_state)
    : option (loop_state * list call) :=
  match p with
  | Stopped => None
  | SerialError => None
  | Idle => Some (st, [])
  | Line raw_line current_time clk => Some (on_line raw_line current_time clk st)
  end.

(** The loop over the cycles the environment offers. *)
Fixpoint run_cycles (ps : list poll) (st : loop_state)
    : loop_state * list call :=
  match ps with
  | [] => (st, [])
  | p :: ps' =>
      match read_cycle p st with
      | None => (st, [])
      | Some (st', calls) =>
          let '(st'', calls') := run_cycles ps' st' in
          (st'', calls ++ calls')
      end
  end.

(** [_read_loop]: [last_sample_time = 0], then the cycles. *)
Definition _read_loop (ps : list poll) (d : WaterFeature8 Callback)
    : loop_state * list call :=
  run_cycles ps {| device := d; last_sample_time := 0 |}.

End ReadLoop.
Arguments loop_state : clear implicits.

(** [WaterFeature8.get_latest_data]: on values the shallow copy of the
    slot's dictionary is the dictionary (see the object store below for
    identities). *)
Definition get_latest_data {Callback} (d : WaterFeature8 Callback)
    : option TelemetryRecord :=
  latest_data d.

(** ** Exceptions *)

Inductive exn :=
| AttributeError
| UnicodeEncodeError
| ValueError.

(** The result of running a method body on a state [S]: it returns, or
    an exception leaves it; either way with the state reached. *)
Inductive outcome (S A : Type) :=
| Ret (a : A) (s : S)
| Raise (e : exn) (s : S).
Arguments Ret {S A} a s.
Arguments Raise {S A} e s.

Definition state_of {S A} (o : outcome S A) : S :=
  match o with Ret _ s => s | Raise _ s => s end.

(** ** Device session: [send_command] and [get_device_info] *)

(** [str.encode()] (UTF-8) on one code point; a surrogate has no
    encoding ([UnicodeEncodeError]). *)
Definition encode_char (c : N) : option (list N) :=
  (if c <? 128 then Some [c]
   else if c <? 2048 then Some [192 + c / 64; 128 + c mod 64]
   else if (55296 <=? c) && (c <=? 57343) then None
   else if c <? 65536 then
     Some [224 + c / 4096; 128 + (c / 64) mod 64; 128 + c mod 64]
   else if c <? 1114112 then
     Some [240 + c / 262144; 128 + (c / 4096) mod 64;
           128 + (c / 64) mod 64; 128 + c mod 64]
   else None)%N.

Fixpoint encode (s : pystr) : option (list N) :=
  match s with
  | [] => Some []
  | c :: s' =>
      match encode_char c, encode s' with
      | Some b, Some bs => Some (b ++ bs)
      | _, _ => None
      end
  end.

(** What the serial transport does with a [write]: it takes the bytes,
    or raises [serial.SerialException]. *)
Inductive write_outcome :=
| Written
| WriteSerialException.

Definition newline : N := 10.

Definition set_serial_conn {Callback} (c : option SerialPort)
    (d : WaterFeature8 Callback) : WaterFeature8 Callback :=
  {| port := port d; baudrate := baudrate d; serial_conn := c;
     running := running d; data_callbacks := data_callbacks d;
     latest_data := latest_data d |}.

(** [self.serial_conn and self.serial_conn.is_open] *)
Definition connected {Callback} (d : WaterFeature8 Callback) : bool :=
  match serial_conn d with
  | Some c => is_open c
  | None => false
  end.

(** [WaterFeature8.send_command]; [w] is the transport's answer to the
    [write], if one is made. *)
Definition send_command {Callback} (w : write_outcome) (command : pystr)
    (d : WaterFeature8 Callback)
    : outcome (WaterFeature8 Callback) bool :=
  match serial_conn d with
  | None => Ret false d
  | Some c =>
      if negb (is_open c) then Ret false d
      else
        match encode (command ++ [newline]) with
        | None => Raise UnicodeEncodeError d
        | Some bytes =>
            match w with
            | Written =>
                Ret true
                  (set_serial_conn
                     (Some {| is_open := is_open c;
                              written := written c ++ [bytes] |}) d)
            | WriteSerialException => Ret false d
            end
        end
  end.

(** One element of [get_device_info()['variables']]. *)
Record VariableInfo := {
  vi_name : pystr;
  vi_unit : pystr;
  vi_description : pystr
}.

Record DeviceInfo := {
  di_device_id : pystr;
  di_model : pystr;
  di_port : pystr;
  di_baudrate : Z;
  di_variables : list VariableInfo;
  di_status : pystr
}.

Fixpoint zip3 {A B C} (la : list A) (lb : list B) (lc : list C)
    : list (A * B * C) :=
  match la, lb, lc with
  | a :: la', b :: lb', c :: lc' => (a, b, c) :: zip3 la' lb' lc'
  | _, _, _ => []
  end.

(** [WaterFeature8.get_device_info] *)
Definition get_device_info {Callback} (d : WaterFeature8 Callback)
    : DeviceInfo :=
  {| di_device_id := lit "WaterFeature8";
     di_model := lit "WaterFeature8";
     di_port := port d;
     di_baudrate := baudrate d;
     di_variables :=
       map (fun '(label, u, desc) =>
              {| vi_name := label; vi_unit := u; vi_description := desc |})
           (zip3 variable_labels variable_units variable_descriptions);
     di_status :=
       if connected d then lit "connected" else lit "disconnected" |}.

(** ** The bridge of [WFaws.py] *)

Local Set Warnings "-register-all".

(** A value produced by [json.loads]. *)
Inductive json :=
| JNull
| JBool (b : bool)
| JInt (n : Z)
| JFloat (f : float)
| JStr (s : pystr)
| JArr (l : list json)
| JObj (o : list (pystr * json)).

(** [v == s] for a string literal [s]. *)
Definition is_str (v : json) (s : pystr) : bool :=
  match v with
  | JStr s' => bool_decide (s' = s)
  | _ => false
  end.

Module WFaws.

(** A measurement of the telemetry payload. *)
Record WireMeasurement := {
  wm_value : float;
  wm_unit : pystr;
  wm_description : pystr
}.

(** The dictionary [payload] of [publish_telemetry_data]. *)
Record TelemetryPayload := {
  tp_device_id : pystr;
  tp_timestamp : pystr;
  tp_epoch_timestamp : Z;
  tp_device_timestamp : pystr;
  tp_measurements : dict WireMeasurement
}.

(** The dictionary [payload] of [publish_device_status]. *)
Record StatusPayload := {
  sp_device_id : pystr;
  sp_status : pystr;
  sp_timestamp : pystr;
  sp_device_info : DeviceInfo
}.

(** The value under ['data'] of a response. *)
Inductive response_data :=
| StatusData (device_info : DeviceInfo)
    (latest_reading : option TelemetryRecord)
| ReadingData (reading : TelemetryRecord).

(** The dictionary [response] of [handle_command]; [data] is [None]
    while the key is absent. *)
Record Response := {
  command_id : json;
  r_device_id : pystr;
  timestamp : pystr;
  status : pystr;
  message : pystr;
  data : option response_data
}.

(** The dictionary handed to [json.dumps] before a [publish]. *)
Inductive payload :=
| TelemetryJson (p : TelemetryPayload)
| StatusJson (p : StatusPayload)
| ResponseJson (r : Response).

(** One call [mqtt_client.publish(topic, json.dumps(payload), qos=...)]. *)
Record publication := {
  pub_topic : pystr;
  pub_payload : payload;
  pub_qos : Z
}.

(** The MQTT client object: the publishes and subscribes made on it. *)
Record MqttClient := {
  published : list publication;
  subscriptions : list pystr
}.

(** An inbound MQTT message. *)
Record Message := {
  msg_topic : pystr;
  msg_payload : list N
}.

(** The fields of a [WaterFeature8IoT] object. *)
Record WaterFeature8IoT {Callback : Type} := {
  device_id : pystr;
  waterfeature_device : WaterFeature8 Callback;
  mqtt_client : option MqttClient;
  connected_to_aws : bool;
  running : bool;
  latest_reading : option TelemetryRecord
}.
Arguments WaterFeature8IoT : clear implicits.

Section Bridge.

Context {Callback : Type}.

(** [json.loads(msg.payload.decode())]: [None] when either step raises
    (both exceptions are [ValueError]s). *)
Variable decode_payload : list N -> option json.

(** [str(v)] on a value that is not a string, as an f-string formats
    it. *)
Variable str_of_json : json -> pystr.

Abbreviation IoT := (WaterFeature8IoT Callback).

Definition topic_telemetry (self : IoT) : pystr :=
  lit "waterfeature8/" ++ device_id self ++ lit "/telemetry".
Definition topic_status (self : IoT) : pystr :=
  lit "waterfeature8/" ++ device_id self ++ lit "/status".
Definition topic_command (self : IoT) : pystr :=
  lit "waterfeature8/" ++ device_id self ++ lit "/command".
Definition topic_response (self : IoT) : pystr :=
  lit "waterfeature8/" ++ device_id self ++ lit "/response".

Definition set_mqtt_client (c : option MqttClient) (self : IoT) : IoT :=
  {| device_id := device_id self;
     waterfeature_device := waterfeature_device self;
     mqtt_client := c;
     connected_to_aws := connected_to_aws self;
     running := running self;
     latest_reading := latest_reading self |}.

Definition set_connected_to_aws (b : bool) (self : IoT) : IoT :=
  {| device_id := device_id self;
     waterfeature_device := waterfeature_device self;
     mqtt_client := mqtt_client self;
     connected_to_aws := b;
     running := running self;
     latest_reading := latest_reading self |}.

Definition set_latest_reading (r : option TelemetryRecord) (self : IoT)
    : IoT :=
  {| device_id := device_id self;
     waterfeature_device := waterfeature_device self;
     mqtt_client := mqtt_client self;
     connected_to_aws := connected_to_aws self;
     running := running self;
     latest_reading := r |}.

Definition set_waterfeature_device (d : WaterFeature8 Callback)
    (self : IoT) : IoT :=
  {| device_id := device_id self;
     waterfeature_device := d;
     mqtt_client := mqtt_client self;
     connected_to_aws := connected_to_aws self;
     running := running self;
     latest_reading := latest_reading self |}.

(** [self.mqtt_client.publish(topic, json.dumps(p), qos=1)] inside
    [try ... except Exception]: with no client the attribute access
    raises and nothing is published.  The call is recorded as made; an
    exception of the call itself is swallowed by the same [except] and
    changes nothing else. *)
Definition mqtt_publish (topic : pystr) (p : payload) (self : IoT) : IoT :=
  match mqtt_client self with
  | Some c =>
      set_mqtt_client
        (Some {| published :=
                   published c ++
                   [{| pub_topic := topic; pub_payload := p; pub_qos := 1 |}];
                 subscriptions := subscriptions c |}) self
  | None => self
  end.

(** The publishes made so far. *)
Definition outbox (self : IoT) : list publication :=
  match mqtt_client self with
  | Some c => published c
  | None => []
  end.

(** [WaterFeature8IoT.get_latest_data] *)
Definition get_latest_data (self : IoT) : option TelemetryRecord :=
  latest_reading self.

Definition publish_command_response (response : Response) (self : IoT)
    : IoT :=
  mqtt_publish (topic_response self) (ResponseJson response) self.

Definition publish_device_status (now : pystr) (st : pystr) (self : IoT)
    : IoT :=
  mqtt_publish (topic_status self)
    (StatusJson {| sp_device_id := device_id self;
                   sp_status := st;
                   sp_timestamp := now;
                   sp_device_info :=
                     get_device_info (waterfeature_device self) |}) self.

(** The [for var_name, var_data in data['variables'].items()] loop. *)
Definition wire_measurements (vars : dict Measurement)
    : dict WireMeasurement :=
  fold_left
    (fun measurements '(var_name, var_data) =>
       dict_set var_name
         {| wm_value := value var_data;
            wm_unit := unit var_data;
            wm_description := description var_data |} measurements)
    vars [].

Definition publish_telemetry_data (data : TelemetryRecord) (self : IoT)
    : IoT :=
  mqtt_publish (topic_telemetry self)
    (TelemetryJson
       {| tp_device_id := device_id self;
          tp_timestamp := local_timestamp data;
          tp_epoch_timestamp := epoch_timestamp data;
          tp_device_timestamp := device_timestamp data;
          tp_measurements := wire_measurements (variables data) |}) self.

(** [data_received_callback], the subscriber the bridge registers. *)
Definition data_received_callback (data : TelemetryRecord) (self : IoT)
    : IoT :=
  let self' := set_latest_reading (Some data) self in
  if connected_to_aws self' then publish_telemetry_data data self'
  else self'.

(** An f-string field [{v}]. *)
Definition fstring_field (v : json) : pystr :=
  match v with
  | JStr s => s
  | _ => str_of_json v
  end.

Definition update (st msg : pystr) (d : option response_data)
    (response : Response) : Response :=
  {| command_id := command_id response;
     r_device_id := r_device_id response;
     timestamp := timestamp response;
     status := st;
     message := msg;
     data := d |}.

(** The [try] body of [handle_command]; [now] is
    [datetime.now().isoformat()], [w] the serial transport's answer to a
    [write]. *)
Definition handle_command_try (now : pystr) (w : write_outcome)
    (command : json) (self : IoT) : outcome IoT () :=
  match command with
  | JObj d =>
      let cmd_type := default (JStr []) (dict_get (lit "type") d) in
      let cmd_id :=
        default (JStr (lit "unknown")) (dict_get (lit "command_id") d) in
      let response :=
        {| command_id := cmd_id;
           r_device_id := device_id self;
           timestamp := now;
           status := lit "error";
           message := lit "Unknown command";
           data := None |} in
      if is_str cmd_type (lit "get_status") then
        let device_info := get_device_info (waterfeature_device self) in
        let latest_data := get_latest_data self in
        Ret tt
          (publish_command_response
             (update (lit "success") (lit "Device status retrieved")
                (Some (StatusData device_info latest_data)) response) self)
      else if is_str cmd_type (lit "get_reading") then
        match get_latest_data self with
        | Some latest_data =>
            Ret tt
              (publish_command_response
                 (update (lit "success") (lit "Latest reading retrieved")
                    (Some (ReadingData latest_data)) response) self)
        | None =>
            Ret tt
              (publish_command_response
                 (update (lit "error") (lit "No recent data available")
                    (data response) response) self)
        end
      else if is_str cmd_type (lit "send_device_command") then
        let device_cmd :=
          default (JStr []) (dict_get (lit "device_command") d) in
        match send_command w (fstring_field device_cmd)
                (waterfeature_device self) with
        | Ret true dev =>
            Ret tt
              (publish_command_response
                 (update (lit "success")
                    (lit "Command sent to device: "
                     ++ fstring_field device_cmd)
                    (data response) response)
                 (set_waterfeature_device dev self))
        | Ret false dev =>
            Ret tt
              (publish_command_response
                 (update (lit "error")
                    (lit "Failed to send command to device")
                    (data response) response)
                 (set_waterfeature_device dev self))
        | Raise e dev => Raise e (set_waterfeature_device dev self)
        end
      else Ret tt (publish_command_response response self)
  | _ => Raise AttributeError self
  end.

(** [handle_command]: the body under [except Exception]. *)
Definition handle_command (now : pystr) (w : write_outcome)
    (command : json) (self : IoT) : outcome IoT () :=
  match handle_command_try now w command self with
  | Ret _ self' => Ret tt self'
  | Raise _ self' => Ret tt self'
  end.

(** The [try] body of [on_mqtt_message]. *)
Definition on_mqtt_message_try (now : pystr) (w : write_outcome)
    (msg : Message) (self : IoT) : outcome IoT () :=
  match decode_payload (msg_payload msg) with
  | None => Raise ValueError self
  | Some command =>
      if bool_decide (msg_topic msg = topic_command self) then
        handle_command now w command self
      else Ret tt self
  end.

(** [on_mqtt_message]: the body under [except Exception]. *)
Definition on_mqtt_message (now : pystr) (w : write_outcome)
    (msg : Message) (self : IoT) : outcome IoT () :=
  match on_mqtt_message_try now w msg self with
  | Ret _ self' => Ret tt self'
  | Raise _ self' => Ret tt self'
  end.

(** [on_mqtt_connect] and [on_mqtt_disconnect] *)
Definition on_mqtt_connect (now : pystr) (rc : Z) (self : IoT) : IoT :=
  if (rc =? 0)%Z then
    let self1 := set_connected_to_aws true self in
    let self2 :=
      match mqtt_client self1 with
      | Some c =>
          set_mqtt_client
            (Some {| published := published c;
                     subscriptions :=
                       subscriptions c ++ [topic_command self1] |}) self1
      | None => self1
      end in
    publish_device_status now (lit "online") self2
  else set_connected_to_aws false self.

Definition on_mqtt_disconnect (self : IoT) : IoT :=
  set_connected_to_aws false self.

End Bridge.

End WFaws.

(** ** Object identities: the slot and its copies

    [get_latest_data] (of both classes) returns [dict.copy()] of the
    slot's dictionary.  Here dictionaries are objects in a store, and a
    value is an immediate or a reference to an object, as in Python. *)

Module ObjectStore.

Inductive pyval :=
| PNone
| PStr (s : pystr)
| PInt (n : Z)
| PFloat (f : float)
| PRef (l : nat).

(** The store: the dictionary object at address [l] is [h !! l]. *)
Abbreviation heap := (list (dict pyval)).

(** A new dictionary object. *)
Definition alloc (o : dict pyval) (h : heap) : nat * heap :=
  (length h, h ++ [o]).

(** [d[k] = v] on the object at [l]. *)
Definition setitem (l : nat) (k : pystr) (v : pyval) (h : heap) : heap :=
  match h !! l with
  | Some o => <[l := dict_set k v o]> h
  | None => h
  end.

(** [d[k]] on the object at [l]. *)
Definition getitem (l : nat) (k : pystr) (h : heap) : option pyval :=
  match h !! l with
  | Some o => dict_get k o
  | None => None
  end.

(** [self.latest_data.copy() if self.latest_data else None]: [slot] is
    the attribute (a reference, or [None]); an empty dictionary is
    falsy; [copy()] makes one new object with the same items. *)
Definition get_latest_data (slot : option nat) (h : heap) : pyval * heap :=
  match slot with
  | None => (PNone, h)
  | Some l =>
      match h !! l with
      | Some (item :: items) =>
          let '(l', h') := alloc (item :: items) h in (PRef l', h')
      | _ => (PNone, h)
      end
  end.

(** The objects [parse_data_line] creates for its result: the
    [variables] dictionary, one dictionary per measurement, and
    [parsed_data]. *)
Definition new_measurement (m : Measurement) (h : heap) : nat * heap :=
  alloc [(lit "value", PFloat (value m)); (lit "unit", PStr (unit m));
         (lit "description", PStr (description m));
         (lit "raw", PStr (raw m))] h.

Fixpoint new_items (vars : dict Measurement) (lv : nat) (h : heap) : heap :=
  match vars with
  | [] => h
  | (label, m) :: rest =>
      let '(lm, h1) := new_measurement m h in
      new_items rest lv (setitem lv label (PRef lm) h1)
  end.

Definition new_record (r : TelemetryRecord) (h : heap) : nat * heap :=
  let '(lv, h1) := alloc [] h in
  let h2 := new_items (variables r) lv h1 in
  alloc [(lit "device_timestamp", PStr (device_timestamp r));
         (lit "local_timestamp", PStr (local_timestamp r));
         (lit "epoch_timestamp", PInt (epoch_timestamp r));
         (lit "variables", PRef lv);
         (lit "device_id", PStr (device_id r));
         (lit "raw_line", PStr (raw_line r))] h2.

(** The record a reference denotes, read through the store. *)
Definition read_measurement (h : heap) (v : pyval) : option Measurement :=
  match v with
  | PRef l =>
      match h !! l with
      | Some o =>
          match dict_get (lit "value") o, dict_get (lit "unit") o,
                dict_get (lit "description") o, dict_get (lit "raw") o with
          | Some (PFloat x), Some (PStr u), Some (PStr d), Some (PStr r) =>
              Some {| value := x; unit := u; description := d; raw := r |}
          | _, _, _, _ => None
          end
      | None => None
      end
  | _ => None
  end.

Fixpoint read_items (h : heap) (o : dict pyval) : option (dict Measurement) :=
  match o with
  | [] => Some []
  | (k, v) :: o' =>
      match read_measurement h v, read_items h o' with
      | Some m, Some ms => Some ((k, m) :: ms)
      | _, _ => None
      end
  end.

Definition read_variables (h : heap) (v : pyval)
    : option (dict Measurement) :=
  match v with
  | PRef lv =>
      match h !! lv with
      | Some o => read_items h o
      | None => None
      end
  | _ => None
  end.

Definition read_object (h : heap) (o : dict pyval)
    : option TelemetryRecord :=
  match dict_get (lit "device_timestamp") o,
        dict_get (lit "local_timestamp") o,
        dict_get (lit "epoch_timestamp") o,
        dict_get (lit "variables") o,
        dict_get (lit "device_id") o,
        dict_get (lit "raw_line") o with
  | Some (PStr dt), Some (PStr lt), Some (PInt e), Some lv,
    Some (PStr id), Some (PStr rl) =>
      match read_variables h lv with
      | Some vars =>
          Some {| device_timestamp := dt; local_timestamp := lt;
                  epoch_timestamp := e; variables := vars;
                  device_id := id; raw_line := rl |}
      | None => None
      end
  | _, _, _, _, _, _ => None
  end.

Definition read_record (h : heap) (v : pyval) : option TelemetryRecord :=
  match v with
  | PRef l =>
      match h !! l with
      | Some o => read_object h o
      | None => None
      end
  | _ => None
  end.

End ObjectStore.

(** ** Further operations of [waterFeatLib.py] *)

Definition set_running {Callback} (b : bool)
    (d : WaterFeature8 Callback) : WaterFeature8 Callback :=
  {| port := port d; baudrate := baudrate d; serial_conn := serial_conn d;
     running := b; data_callbacks := data_callbacks d;
     latest_data := latest_data d |}.

Definition set_data_callbacks {Callback} (l : list Callback)
    (d : WaterFeature8 Callback) : WaterFeature8 Callback :=
  {| port := port d; baudrate := baudrate d; serial_conn := serial_conn d;
     running := running d; data_callbacks := l;
     latest_data := latest_data d |}.

(** What [serial.Serial(port=..., ...)] does: it returns an open port,
    or raises [serial.SerialException]. *)
Inductive open_outcome :=
| Opened
| OpenSerialException.

(** [WaterFeature8.connect]: on the exception [self.serial_conn] keeps
    the value it had. *)
Definition connect {Callback} (o : open_outcome)
    (d : WaterFeature8 Callback) : bool * WaterFeature8 Callback :=
  match o with
  | Opened =>
      (true, set_serial_conn (Some {| is_open := true; written := [] |}) d)
  | OpenSerialException => (false, d)
  end.

(** [WaterFeature8.disconnect] *)
Definition disconnect {Callback} (d : WaterFeature8 Callback)
    : WaterFeature8 Callback :=
  let d1 := set_running false d in
  match serial_conn d1 with
  | Some c =>
      if is_open c
      then set_serial_conn
             (Some {| is_open := false; written := written c |}) d1
      else d1
  | None => d1
  end.

(** [l.remove(x)] on a list that holds [x]: the first occurrence goes. *)
Fixpoint list_remove {A} `{EqDecision A} (x : A) (l : list A) : list A :=
  match l with
  | [] => []
  | y :: l' => if decide (x = y) then l' else y :: list_remove x l'
  end.

(** [WaterFeature8.add_data_callback] *)
Definition add_data_callback {Callback} (callback : Callback)
    (d : WaterFeature8 Callback) : WaterFeature8 Callback :=
  set_data_callbacks (data_callbacks d ++ [callback]) d.

(** [WaterFeature8.remove_data_callback] *)
Definition remove_data_callback {Callback} `{EqDecision Callback}
    (callback : Callback) (d : WaterFeature8 Callback)
    : WaterFeature8 Callback :=
  if bool_decide (callback ∈ data_callbacks d)
  then set_data_callbacks (list_remove callback (data_callbacks d)) d
  else d.

(** [WaterFeature8.start_continuous_reading]: the flag it sets and its
    result; the thread it starts runs [_read_loop]. *)
Definition start_continuous_reading {Callback} (d : WaterFeature8 Callback)
    : bool * WaterFeature8 Callback :=
  if negb (connected d) then (false, d) else (true, set_running true d).

(** [WaterFeature8.stop_continuous_reading]: the flag it clears (the
    bounded [join] is not part of the state). *)
Definition stop_continuous_reading {Callback} (d : WaterFeature8 Callback)
    : WaterFeature8 Callback :=
  set_running false d.

(** [WaterFeature8.__init__] with its default arguments. *)
Definition new_device {Callback} (p : pystr) : WaterFeature8 Callback :=
  {| port := p; baudrate := 115200; serial_conn := None; running := false;
     data_callbacks := []; latest_data := None |}.

(** The cycles of a loop run that meet a line read at a time in
    [[T, T + 60)]. *)
Definition within_window (T : Q) (p : poll) : Prop :=
  match p with
  | Line _ t _ => (T <= t /\ t < T + 60)%Q
  | _ => True
  end.

(** The lines a loop run is offered, with the clock of their parse. *)
Fixpoint offered (ps : list poll) : list (clock * pystr) :=
  match ps with
  | [] => []
  | Line raw _ clk :: ps' => (clk, raw) :: offered ps'
  | _ :: ps' => offered ps'
  end.

(** The telemetry message [publish_telemetry_data] makes of a record. *)
Definition telemetry_of {Callback} (self : WFaws.WaterFeature8IoT Callback)
    (data : TelemetryRecord) : WFaws.publication :=
  {| WFaws.pub_topic := WFaws.topic_telemetry self;
     WFaws.pub_payload :=
       WFaws.TelemetryJson
         {| WFaws.tp_device_id := WFaws.device_id self;
            WFaws.tp_timestamp := local_timestamp data;
            WFaws.tp_epoch_timestamp := epoch_timestamp data;
            WFaws.tp_device_timestamp := device_timestamp data;
            WFaws.tp_measurements :=
              WFaws.wire_measurements (variables data) |};
     WFaws.pub_qos := 1 |}.

(** Lines each read at least 60 seconds after the one before, the first
    at least 60 seconds after [l]. *)
Fixpoint spaced (l : Q) (lines : list (pystr * Q * clock)) : Prop :=
  match lines with
  | [] => True
  | (_, t, _) :: rest => (60 <= t - l)%Q /\ spaced t rest
  end.

Definition line_cycle (x : pystr * Q * clock) : poll :=
  let '(raw, t, clk) := x in Line raw t clk.

(** ** Vocabulary of the statements *)

(** The measurement [parse_data_line] stores for [token] at channel [i]. *)
Definition measurement_at (float_of_str : pystr -> option float)
    (i : nat) (token : pystr) : Measurement :=
  {| value :=
       match strip token with
       | [] => 0%float
       | _ :: _ => default 0%float (float_of_str (strip token))
       end;
     unit := nth i variable_units [];
     description := nth i variable_descriptions [];
     raw := strip token |}.

(** A cycle that shows the loop no non-blank line. *)
Definition blank_cycle (p : poll) : Prop :=
  match p with
  | Idle => True
  | Line raw_line _ _ => strip raw_line = []
  | Stopped | SerialError => False
  end.

(** A conversion to instantiate [float_of_str] with: unsigned decimal
    integers only. *)
Fixpoint digits_value (acc : Z) (s : pystr) : option Z :=
  match s with
  | [] => Some acc
  | c :: s' =>
      if ((48 <=? c) && (c <=? 57))%N
      then digits_value (10 * acc + (Z.of_N c - 48)) s'
      else None
  end.

Definition decimal_float (s : pystr) : option float :=
  match s with
  | [] => None
  | _ :: _ =>
      option_map (fun z => PrimFloat.of_uint63 (Uint63.of_Z z))
        (digits_value 0 s)
  end.

(** The command types [handle_command] knows. *)
Definition known_command_types : list pystr :=
  [lit "get_status"; lit "get_reading"; lit "send_device_command"].

(** A measurement as the telemetry payload carries it. *)
Definition drop_raw (m : Measurement) : WFaws.WireMeasurement :=
  {| WFaws.wm_value := value m;
     WFaws.wm_unit := unit m;
     WFaws.wm_description := description m |}.

(** Concrete values the statements are instantiated at. *)
Definition clock0 : clock :=
  {| now_isoformat := lit "2024-01-01T00:00:00"; time_time := 1704067200 |}.

Definition device0 : WaterFeature8 nat :=
  {| port := lit "/dev/tty.usbserial-14110";
     baudrate := 115200;
     serial_conn := Some {| is_open := true; written := [] |};
     running := true;
     data_callbacks := [0; 1];
     latest_data := None |}.

Definition iot0 : WFaws.WaterFeature8IoT nat :=
  {| WFaws.device_id := lit "waterfeature8-001";
     WFaws.waterfeature_device := device0;
     WFaws.mqtt_client :=
       Some {| WFaws.published := []; WFaws.subscriptions := [] |};
     WFaws.connected_to_aws := true;
     WFaws.running := true;
     WFaws.latest_reading := None |}.

Definition reading0 : TelemetryRecord :=
  {| device_timestamp := lit "12:00:00";
     local_timestamp := lit "2024-01-01T00:00:00";
     epoch_timestamp := 1704067200;
     variables :=
       [(lit "EC",
         {| value := 1413%float; unit := 956%N :: lit "S/cm";
            description := lit "Electrical Conductivity";
            raw := lit "1413" |});
        (lit "RTD_EC",
         {| value := 21%float; unit := 176%N :: lit "C";
            description := lit "Temperature (EC compensation)";
            raw := lit "21" |})];
     device_id := lit "WaterFeature8";
     raw_line := lit "12:00:00,1413,21" |}.

(** A decoder to instantiate [decode_payload] with: it reads the texts
    [[]] and [{"type": "frobulate", "command_id": "x"}] only. *)
Definition toy_decode (bytes : list N) : option json :=
  if bool_decide (bytes = lit "[]") then Some (JArr [])
  else if bool_decide
            (bytes = 123%N :: 34%N :: lit "type" ++ 34%N :: lit ": "
                     ++ 34%N :: lit "frobulate" ++ 34%N :: lit ", "
                     ++ 34%N :: lit "command_id" ++ 34%N :: lit ": "
                     ++ 34%N :: lit "x" ++ [34%N; 125%N])
  then Some (JObj [(lit "type", JStr (lit "frobulate"));
                   (lit "command_id", JStr (lit "x"))])
  else None.

(** A formatter to instantiate [str_of_json] with. *)
Definition toy_str (v : json) : pystr :=
  match v with
  | JNull => lit "None"
  | JBool true => lit "True"
  | JBool false => lit "False"
  | _ => lit "?"
  end.

(** ** The reading parser *)

Lemma split_nonempty sep s : split sep s <> [].
Proof.
  destruct s as [|c s]; simpl; [done|].
  destruct (c =? sep)%N; [done|]. by destruct (split sep s).
Qed.

Lemma dict_set_fresh {V} k (v : V) d :
  k ∉ d.*1 -> dict_set k v d = d ++ [(k, v)].
Proof.
  induction d as [|[k' v'] d IH]; simpl; intros Hk; [done|].
  rewrite not_elem_of_cons in Hk. destruct Hk as [Hne Hk].
  destruct (decide (k = k')); [done|]. by rewrite IH.
Qed.

Lemma dict_get_lookup {V} (d : dict V) j k v :
  NoDup d.*1 -> d !! j = Some (k, v) -> dict_get k d = Some v.
Proof.
  revert j. induction d as [|[k' v'] d IH]; intros j Hnd Hj; [done|].
  simpl in *. apply NoDup_cons in Hnd as [Hk' Hnd].
  destruct j as [|j]; simpl in Hj.
  - inversion Hj; subst. by rewrite decide_True.
  - destruct (decide (k = k')) as [->|Hne].
    + exfalso. apply Hk'. apply list_elem_of_fmap.
      exists (k', v). split; [done|]. by apply list_elem_of_lookup_2 in Hj.
    + by apply (IH j).
Qed.

Lemma variable_labels_NoDup : NoDup variable_labels.
Proof. apply (bool_decide_unpack _). by vm_compute. Qed.

Lemma variable_labels_length : length variable_labels = 7.
Proof. by vm_compute. Qed.

Local Opaque variable_labels variable_units variable_descriptions.

Lemma label_fresh i :
  i < length variable_labels ->
  nth i variable_labels [] ∉ take i variable_labels.
Proof.
  intros Hi Hin. apply elem_of_take in Hin as (j & Hj & Hlt).
  destruct (lookup_lt_is_Some_2 variable_labels i Hi) as [x Hx].
  rewrite nth_lookup, Hx in Hj. simpl in Hj.
  pose proof (NoDup_lookup _ _ _ _ variable_labels_NoDup Hj Hx). lia.
Qed.

Section ParserFacts.

Variable float_of_str : pystr -> option float.

Lemma parse_field_eq i token vars :
  i < length variable_labels ->
  parse_field float_of_str i token vars =
  dict_set (nth i variable_labels []) (measurement_at float_of_str i token)
    vars.
Proof.
  intros Hi. unfold parse_field, measurement_at.
  rewrite bool_decide_eq_true_2 by done.
  destruct (strip token) as [|c s]; [done|].
  by destruct (float_of_str (c :: s)).
Qed.

Lemma parse_fields_beyond toks i vars :
  length variable_labels <= i ->
  parse_fields float_of_str i toks vars = vars.
Proof.
  revert i vars. induction toks as [|tok toks IH]; intros i vars Hi; [done|].
  simpl. unfold parse_field at 1.
  rewrite bool_decide_eq_false_2 by lia. apply IH. lia.
Qed.

Lemma parse_fields_from toks i vars :
  vars.*1 = take i variable_labels ->
  i <= length variable_labels ->
  parse_fields float_of_str i toks vars =
  vars ++ imap (fun j token =>
                  (nth (i + j) variable_labels [],
                   measurement_at float_of_str (i + j) token))
               (take (length variable_labels - i) toks).
Proof.
  revert i vars. induction toks as [|tok toks IH]; intros i vars Hkeys Hi.
  - simpl. rewrite take_nil. simpl. by rewrite app_nil_r.
  - cbn [parse_fields].
    destruct (decide (i = length variable_labels)) as [->|Hne].
    + rewrite parse_fields_beyond by lia.
      unfold parse_field. rewrite bool_decide_eq_false_2 by lia.
      rewrite Nat.sub_diag. simpl. by rewrite app_nil_r.
    + assert (Hlt : i < length variable_labels) by lia.
      rewrite parse_field_eq by done.
      rewrite dict_set_fresh by (rewrite Hkeys; by apply label_fresh).
      rewrite IH; [| |lia].
      * replace (length variable_labels - i)
          with (S (length variable_labels - S i)) by lia.
        rewrite firstn_cons, imap_cons, <- app_assoc. cbn [app].
        rewrite Nat.add_0_r. do 2 f_equal.
        apply imap_ext. intros j x _. cbn [compose].
        by rewrite Nat.add_succ_r.
      * rewrite fmap_app, Hkeys. cbn [fmap list_fmap fst].
        destruct (lookup_lt_is_Some_2 variable_labels i Hlt) as [x Hx].
        rewrite (take_S_r _ _ x) by done.
        by rewrite nth_lookup, Hx.
Qed.

(** The [variables] of a parse: the first seven tokens, in order, under
    the channel names. *)
Lemma parse_fields_spec toks :
  parse_fields float_of_str 0 toks [] =
  imap (fun j token =>
          (nth j variable_labels [], measurement_at float_of_str j token))
       (take (length variable_labels) toks).
Proof.
  rewrite parse_fields_from; [|done|lia]. by rewrite Nat.sub_0_r.
Qed.

Lemma parse_fields_keys toks :
  (parse_fields float_of_str 0 toks []).*1 =
  take (length toks) variable_labels.
Proof.
  rewrite parse_fields_spec. apply list_eq. intros j.
  rewrite list_lookup_fmap, list_lookup_imap.
  destruct (decide (j < length toks /\ j < length variable_labels))
    as [[H1 H2]|Hn].
  - rewrite lookup_take_lt by done.
    destruct (lookup_lt_is_Some_2 toks j H1) as [tok Htok].
    destruct (lookup_lt_is_Some_2 variable_labels j H2) as [x Hx].
    rewrite lookup_take_lt, Htok by done. simpl.
    by rewrite nth_lookup, Hx.
  - destruct (decide (j < length variable_labels)) as [H2|H2].
    + rewrite (proj2 (lookup_ge_None (take _ toks) j))
        by (rewrite length_take; lia).
      simpl. symmetry. apply lookup_ge_None. rewrite length_take. lia.
    + rewrite (proj2 (lookup_ge_None (take _ toks) j))
        by (rewrite length_take; lia).
      simpl. symmetry. apply lookup_ge_None. rewrite length_take. lia.
Qed.

Lemma parse_fields_NoDup toks :
  NoDup (parse_fields float_of_str 0 toks []).*1.
Proof.
  rewrite parse_fields_keys.
  eapply sublist_NoDup; [apply variable_labels_NoDup|apply sublist_take].
Qed.

End ParserFacts.

Lemma parse_Some_nonblank float_of_str clk line r :
  parse_data_line float_of_str clk line = Some r -> strip line <> [].
Proof.
  unfold parse_data_line. intros H Hblank. rewrite Hblank in H.
  by rewrite bool_decide_eq_true_2 in H by (simpl; lia).
Qed.

(** C2.  For every line and every field position [i] from 1 to 7: if the
    token at position [i] is empty after trimming, or [float] rejects
    it, the parse succeeds, and channel [i-1] of its result holds the
    value 0.0, the unit and description bound to that channel, and the
    trimmed token as [raw]. *)
Theorem parse_non_numeric_token
    (float_of_str : pystr -> option float) clk line i token :
  1 <= i <= 7 ->
  split comma (strip line) !! i = Some token ->
  strip token = [] \/ float_of_str (strip token) = None ->
  exists r,
    parse_data_line float_of_str clk line = Some r /\
    let m := {| value := 0%float;
                unit := nth (i - 1) variable_units [];
                description := nth (i - 1) variable_descriptions [];
                raw := strip token |} in
    variables r !! (i - 1) = Some (nth (i - 1) variable_labels [], m) /\
    dict_get (nth (i - 1) variable_labels []) (variables r) = Some m.
Proof.
  intros Hi Htok Hbad. unfold parse_data_line.
  destruct (split comma (strip line)) as [|dev_ts raw_variables] eqn:Hparts;
    [done|].
  destruct i as [|j]; [lia|]. simpl in Htok.
  rewrite bool_decide_eq_false_2
    by (apply lookup_lt_Some in Htok; simpl; lia).
  eexists. split; [done|]. cbn [variables].
  replace (S j - 1) with j by lia.
  assert (Hm : measurement_at float_of_str j token =
               {| value := 0%float;
                  unit := nth j variable_units [];
                  description := nth j variable_descriptions [];
                  raw := strip token |}).
  { unfold measurement_at. destruct Hbad as [->|Hnone]; [done|].
    rewrite Hnone. by destruct (strip token). }
  assert (Hlook : parse_fields float_of_str 0 raw_variables [] !! j =
                  Some (nth j variable_labels [],
                        measurement_at float_of_str j token)).
  { rewrite parse_fields_spec, list_lookup_imap, lookup_take_lt
      by (rewrite variable_labels_length; lia).
    by rewrite Htok. }
  rewrite Hm in Hlook. split; [done|].
  eapply dict_get_lookup; [apply parse_fields_NoDup|done].
Qed.

Lemma parse_non_numeric_token_witness :
  split comma (strip (lit "12:00:05, abc ,7")) !! 1 = Some (lit " abc ") /\
  decimal_float (strip (lit " abc ")) = None /\
  exists r,
    parse_data_line decimal_float clock0 (lit "12:00:05, abc ,7") = Some r /\
    let m := {| value := 0%float;
                unit := nth (1 - 1) variable_units [];
                description := nth (1 - 1) variable_descriptions [];
                raw := strip (lit " abc ") |} in
    variables r !! (1 - 1) = Some (nth (1 - 1) variable_labels [], m) /\
    dict_get (nth (1 - 1) variable_labels []) (variables r) = Some m.
Proof.
  split; [reflexivity|]. split; [reflexivity|].
  apply (parse_non_numeric_token decimal_float clock0
           (lit "12:00:05, abc ,7") 1 (lit " abc "));
    [lia | reflexivity | right; reflexivity].
Defined.

(** ** The acquisition loop *)

Section LoopFacts.

Variable float_of_str : pystr -> option float.
Context {Callback : Type}.
Implicit Types st : loop_state Callback.

Lemma gate_closed (t l : Q) :
  ~ (60 <= t - l)%Q -> Qle_bool 60 (t - l) = false.
Proof.
  intros H. destruct (Qle_bool 60 (t - l)) eqn:E; [|done].
  by apply Qle_bool_iff in E.
Qed.

Lemma gate_open (t l : Q) :
  (60 <= t - l)%Q -> Qle_bool 60 (t - l) = true.
Proof. apply Qle_bool_iff. Qed.

Lemma on_line_closed raw t clk st :
  ~ (60 <= t - last_sample_time st)%Q ->
  on_line float_of_str raw t clk st = (st, []).
Proof.
  intros H. unfold on_line. destruct (strip raw); [done|].
  by rewrite gate_closed.
Qed.

Lemma on_line_open raw t clk st :
  strip raw <> [] ->
  (60 <= t - last_sample_time st)%Q ->
  on_line float_of_str raw t clk st =
  match parse_data_line float_of_str clk raw with
  | Some r =>
      ({| device := set_latest_data r (device st); last_sample_time := t |},
       fan_out (device st) r)
  | None => ({| device := device st; last_sample_time := t |}, [])
  end.
Proof.
  intros Hnb H. unfold on_line. destruct (strip raw); [done|].
  by rewrite gate_open.
Qed.

Lemma run_cycles_blank ps rest st :
  Forall blank_cycle ps ->
  run_cycles float_of_str (ps ++ rest) st = run_cycles float_of_str rest st.
Proof.
  induction 1 as [|p ps Hp _ IH]; [done|].
  cbn [app run_cycles].
  destruct p as [| |raw t clk|]; simpl in Hp; try done.
  - simpl. rewrite IH. by destruct (run_cycles _ rest st).
  - simpl. unfold on_line. rewrite Hp, IH.
    by destruct (run_cycles _ rest st).
Qed.

End LoopFacts.

(** C3.  A line that splits into fewer than two comma-separated fields
    is not parsed into a record, and a loop cycle that reads it leaves
    the object (its [latest_data] slot included) as it was and calls no
    subscriber. *)
Theorem too_few_fields {Callback} (float_of_str : pystr -> option float)
    clk line t (st : loop_state Callback) :
  length (split comma (strip line)) < 2 ->
  parse_data_line float_of_str clk line = None /\
  exists st',
    read_cycle float_of_str (Line line t clk) st = Some (st', []) /\
    device st' = device st /\
    latest_data (device st') = latest_data (device st).
Proof.
  intros Hlen.
  assert (Hparse : parse_data_line float_of_str clk line = None).
  { unfold parse_data_line. by rewrite bool_decide_eq_true_2. }
  split; [done|]. cbn [read_cycle]. unfold on_line. rewrite Hparse.
  destruct (strip line); [by eexists|].
  destruct (Qle_bool _ _); by eexists.
Qed.

Lemma too_few_fields_witness :
  length (split comma (strip (lit "sensor warming up"))) < 2 /\
  parse_data_line decimal_float clock0 (lit "sensor warming up") = None /\
  exists st',
    read_cycle decimal_float (Line (lit "sensor warming up") 1704067200 clock0)
      {| device := device0; last_sample_time := 0 |} = Some (st', []) /\
    device st' = device0 /\
    latest_data (device st') = latest_data device0.
Proof.
  split; [vm_compute; lia|].
  apply (too_few_fields decimal_float clock0 (lit "sensor warming up")
           1704067200 {| device := device0; last_sample_time := 0 |}).
  vm_compute; lia.
Defined.

(** C1.  The sampling gate of [_read_loop], for a non-blank line read at
    time [t] when the previous accepted sample (the last line let
    through the gate) was read at [last_sample_time]: with less than 60
    seconds between them the line is discarded (state untouched, no
    subscriber called); a subscriber is called only with at least 60
    seconds between them; with at least 60 seconds the line is parsed
    and, if the parse succeeds, stored and fanned out.  Of two valid
    lines 10 seconds apart only the first is published; of two valid
    lines 61 seconds apart both are. *)
Theorem sampling_gate {Callback} (float_of_str : pystr -> option float)
    (st : loop_state Callback) raw t clk raw2 clk2 :
  strip raw <> [] ->
  (~ (60 <= t - last_sample_time st)%Q ->
   on_line float_of_str raw t clk st = (st, [])) /\
  ((on_line float_of_str raw t clk st).2 <> [] ->
   (60 <= t - last_sample_time st)%Q) /\
  ((60 <= t - last_sample_time st)%Q ->
   on_line float_of_str raw t clk st =
   match parse_data_line float_of_str clk raw with
   | Some r =>
       ({| device := set_latest_data r (device st); last_sample_time := t |},
        fan_out (device st) r)
   | None => ({| device := device st; last_sample_time := t |}, [])
   end) /\
  (forall r1 r2,
     (60 <= t - last_sample_time st)%Q ->
     parse_data_line float_of_str clk raw = Some r1 ->
     parse_data_line float_of_str clk2 raw2 = Some r2 ->
     run_cycles float_of_str [Line raw t clk; Line raw2 (t + 10) clk2] st =
     ({| device := set_latest_data r1 (device st); last_sample_time := t |},
      fan_out (device st) r1) /\
     run_cycles float_of_str [Line raw t clk; Line raw2 (t + 61) clk2] st =
     ({| device := set_latest_data r2 (set_latest_data r1 (device st));
         last_sample_time := (t + 61)%Q |},
      fan_out (device st) r1 ++ fan_out (device st) r2)).
Proof.
  intros Hnb. split_and!.
  - apply on_line_closed.
  - intros Hcalls.
    destruct (Qlt_le_dec (t - last_sample_time st) 60) as [Hlt|Hle]; [|done].
    rewrite on_line_closed in Hcalls; [done|].
    intros Hle. apply (Qlt_not_le _ _ Hlt Hle).
  - by apply on_line_open.
  - intros r1 r2 Hgate Hp1 Hp2.
    pose proof (parse_Some_nonblank _ _ _ _ Hp2) as Hnb2.
    cbn [run_cycles read_cycle].
    rewrite (on_line_open _ _ _ _ _ Hnb Hgate), Hp1. split.
    + rewrite on_line_closed; [by rewrite app_nil_r|].
      cbn [last_sample_time]. lra.
    + rewrite on_line_open; [|done|cbn [last_sample_time]; lra].
      rewrite Hp2. by rewrite app_nil_r.
Qed.

Lemma sampling_gate_witness :
  let st := {| device := device0; last_sample_time := 0 |} in
  let raw := lit "12:00:00,1413,21,7,21,8,21,250" in
  let raw2 := lit "12:01:01,1420,21,7,21,8,21,251" in
  exists r1 r2,
    parse_data_line decimal_float clock0 raw = Some r1 /\
    parse_data_line decimal_float clock0 raw2 = Some r2 /\
    run_cycles decimal_float
      [Line raw 1704067200 clock0; Line raw2 (1704067200 + 10) clock0] st =
    ({| device := set_latest_data r1 device0;
        last_sample_time := 1704067200 |},
     [(0, r1); (1, r1)]) /\
    run_cycles decimal_float
      [Line raw 1704067200 clock0; Line raw2 (1704067200 + 61) clock0] st =
    ({| device := set_latest_data r2 (set_latest_data r1 device0);
        last_sample_time := (1704067200 + 61)%Q |},
     [(0, r1); (1, r1); (0, r2); (1, r2)]).
Proof.
  intros st raw raw2.
  assert (Hnb : strip raw <> []) by (vm_compute; discriminate).
  assert (Hgate : (60 <= 1704067200 - last_sample_time st)%Q)
    by (vm_compute; discriminate).
  eexists _, _. split; [vm_compute; reflexivity|].
  split; [vm_compute; reflexivity|].
  apply (proj2 (proj2 (proj2
           (sampling_gate decimal_float st raw 1704067200 clock0 raw2 clock0
              Hnb))) _ _ Hgate); vm_compute; reflexivity.
Defined.

(** C10, as the code has it.  The first non-blank line the loop sees is
    compared with the initial [last_sample_time = 0]: it passes the gate
    when it is read at a clock value of at least 60 seconds (then it is
    parsed and, if valid, stored and fanned out), and it is discarded
    when the clock reads less than 60. *)
Theorem first_line_gate {Callback} (float_of_str : pystr -> option float)
    (d : WaterFeature8 Callback) ps raw t clk :
  Forall blank_cycle ps ->
  strip raw <> [] ->
  ((60 <= t)%Q ->
   _read_loop float_of_str (ps ++ [Line raw t clk]) d =
   match parse_data_line float_of_str clk raw with
   | Some r =>
       ({| device := set_latest_data r d; last_sample_time := t |},
        fan_out d r)
   | None => ({| device := d; last_sample_time := t |}, [])
   end) /\
  ((t < 60)%Q ->
   _read_loop float_of_str (ps ++ [Line raw t clk]) d =
   ({| device := d; last_sample_time := 0 |}, [])).
Proof.
  intros Hps Hnb. unfold _read_loop. rewrite run_cycles_blank by done.
  cbn [run_cycles read_cycle]. split; intros Ht.
  - rewrite on_line_open; [|done|cbn [last_sample_time]; lra].
    destruct (parse_data_line _ _ _); cbn [device]; by rewrite app_nil_r.
  - rewrite on_line_closed; [done|]. cbn [last_sample_time]. lra.
Qed.

Lemma first_line_gate_witness :
  _read_loop decimal_float
    [Idle; Line (lit "  ") 1704067190 clock0;
     Line (lit "12:00:00,1413,21") 1704067200 clock0] device0 =
  match parse_data_line decimal_float clock0 (lit "12:00:00,1413,21") with
  | Some r =>
      ({| device := set_latest_data r device0;
          last_sample_time := 1704067200 |}, fan_out device0 r)
  | None => ({| device := device0; last_sample_time := 1704067200 |}, [])
  end.
Proof.
  refine (proj1 (first_line_gate decimal_float device0
            [Idle; Line (lit "  ") 1704067190 clock0]
            (lit "12:00:00,1413,21") 1704067200 clock0 _ _) _).
  - repeat constructor.
  - vm_compute; discriminate.
  - vm_compute; discriminate.
Defined.

(** C10, as claimed, fails: a valid first line read while the clock
    shows 10 seconds past the epoch does not pass the gate; nothing is
    stored and no subscriber is called. *)
Lemma first_line_early_clock_discarded :
  exists r,
    parse_data_line decimal_float clock0 (lit "12:00:00,1413,21") = Some r /\
    fan_out device0 r <> [] /\
    _read_loop decimal_float [Line (lit "12:00:00,1413,21") 10 clock0] device0
    = ({| device := device0; last_sample_time := 0 |}, []).
Proof.
  eexists. split; [reflexivity|]. split; [discriminate|]. reflexivity.
Qed.

(** ** The command/response bridge *)

Section BridgeFacts.

Context {Callback : Type}.
Variable decode_payload : list N -> option json.
Variable str_of_json : json -> pystr.
Implicit Types self : WFaws.WaterFeature8IoT Callback.

Lemma outbox_mqtt_publish topic p self c :
  WFaws.mqtt_client self = Some c ->
  WFaws.outbox (WFaws.mqtt_publish topic p self) =
  WFaws.outbox self ++
  [{| WFaws.pub_topic := topic; WFaws.pub_payload := p;
      WFaws.pub_qos := 1 |}].
Proof.
  intros Hc. unfold WFaws.mqtt_publish, WFaws.outbox. by rewrite Hc.
Qed.

Lemma handle_command_unfold now w command self :
  WFaws.handle_command str_of_json now w command self =
  Ret tt (state_of (WFaws.handle_command_try str_of_json now w command self)).
Proof.
  unfold WFaws.handle_command.
  by destruct (WFaws.handle_command_try _ _ _ _ _) as [[] ?|].
Qed.

(** An exception leaves the [try] body of [handle_command] before the
    response is published. *)
Lemma handle_command_try_raise now w command self e self' :
  WFaws.handle_command_try str_of_json now w command self = Raise e self' ->
  WFaws.outbox self' = WFaws.outbox self.
Proof.
  unfold WFaws.handle_command_try. intros H.
  destruct command; try by inversion H.
  repeat (match type of H with
          | context [if ?b then _ else _] => destruct b
          | context [match WFaws.get_latest_data ?x with _ => _ end] =>
              destruct (WFaws.get_latest_data x)
          end; try done).
  destruct (send_command _ _ _) as [[|] dev|e' dev]; try done.
  by inversion H.
Qed.

Lemma data_received_callback_fields data self :
  WFaws.latest_reading (WFaws.data_received_callback data self) = Some data /\
  WFaws.device_id (WFaws.data_received_callback data self) =
    WFaws.device_id self /\
  (is_Some (WFaws.mqtt_client self) ->
   is_Some (WFaws.mqtt_client (WFaws.data_received_callback data self))).
Proof.
  unfold WFaws.data_received_callback, WFaws.publish_telemetry_data,
    WFaws.mqtt_publish.
  cbn [WFaws.connected_to_aws WFaws.set_latest_reading WFaws.mqtt_client].
  destruct (WFaws.connected_to_aws self); [|done].
  by destruct (WFaws.mqtt_client self).
Qed.

Lemma data_received_callbacks_fields samples self :
  WFaws.device_id
    (fold_left (fun s r => WFaws.data_received_callback r s) samples self) =
    WFaws.device_id self /\
  (is_Some (WFaws.mqtt_client self) ->
   is_Some (WFaws.mqtt_client
     (fold_left (fun s r => WFaws.data_received_callback r s) samples self))).
Proof.
  revert self. induction samples as [|r samples IH]; intros self; [done|].
  cbn [fold_left].
  destruct (IH (WFaws.data_received_callback r self)) as [Hid Hc].
  destruct (data_received_callback_fields r self) as (_ & Hid' & Hc').
  split; [congruence|auto].
Qed.

End BridgeFacts.

(** C4.  A [get_reading] command with [command_id] "abc", on a bridge
    whose MQTT client exists: while no sample has been received, one
    response is published with that identifier, status "error" and
    message "No recent data available"; after the subscriber has
    received samples, one response is published with status "success"
    whose data is the last sample received. *)
Theorem get_reading_round_trip {Callback} (str_of_json : json -> pystr)
    now w d (self : WFaws.WaterFeature8IoT Callback) :
  is_Some (WFaws.mqtt_client self) ->
  dict_get (lit "type") d = Some (JStr (lit "get_reading")) ->
  dict_get (lit "command_id") d = Some (JStr (lit "abc")) ->
  (WFaws.latest_reading self = None ->
   exists self',
     WFaws.handle_command str_of_json now w (JObj d) self = Ret tt self' /\
     WFaws.outbox self' =
     WFaws.outbox self ++
     [{| WFaws.pub_topic := WFaws.topic_response self;
         WFaws.pub_payload :=
           WFaws.ResponseJson
             {| WFaws.command_id := JStr (lit "abc");
                WFaws.r_device_id := WFaws.device_id self;
                WFaws.timestamp := now;
                WFaws.status := lit "error";
                WFaws.message := lit "No recent data available";
                WFaws.data := None |};
         WFaws.pub_qos := 1 |}]) /\
  (forall samples sample,
     let self1 :=
       fold_left (fun s r => WFaws.data_received_callback r s)
         (samples ++ [sample]) self in
     exists self',
       WFaws.handle_command str_of_json now w (JObj d) self1 = Ret tt self' /\
       WFaws.outbox self' =
       WFaws.outbox self1 ++
       [{| WFaws.pub_topic := WFaws.topic_response self;
           WFaws.pub_payload :=
             WFaws.ResponseJson
               {| WFaws.command_id := JStr (lit "abc");
                  WFaws.r_device_id := WFaws.device_id self;
                  WFaws.timestamp := now;
                  WFaws.status := lit "success";
                  WFaws.message := lit "Latest reading retrieved";
                  WFaws.data := Some (WFaws.ReadingData sample) |};
           WFaws.pub_qos := 1 |}]).
Proof.
  intros Hc Hty Hid. split.
  - intros Hnone. rewrite handle_command_unfold. eexists. split; [done|].
    destruct Hc as [c Hc].
    unfold WFaws.handle_command_try. rewrite Hty, Hid.
    cbn [from_option id is_str]. rewrite bool_decide_eq_false_2 by done.
    rewrite bool_decide_eq_true_2 by done.
    unfold WFaws.get_latest_data. rewrite Hnone. cbn [state_of].
    unfold WFaws.publish_command_response.
    by rewrite (outbox_mqtt_publish _ _ _ c).
  - intros samples sample self1. rewrite handle_command_unfold.
    eexists. split; [done|].
    assert (Hlatest : WFaws.latest_reading self1 = Some sample).
    { subst self1. rewrite fold_left_app. cbn [fold_left].
      apply data_received_callback_fields. }
    destruct (data_received_callbacks_fields (samples ++ [sample]) self)
      as [Hdev Hcl].
    fold self1 in Hdev, Hcl. destruct (Hcl Hc) as [c1 Hc1].
    unfold WFaws.handle_command_try. rewrite Hty, Hid.
    cbn [from_option id is_str]. rewrite bool_decide_eq_false_2 by done.
    rewrite bool_decide_eq_true_2 by done.
    unfold WFaws.get_latest_data. rewrite Hlatest. cbn [state_of].
    unfold WFaws.publish_command_response.
    rewrite (outbox_mqtt_publish _ _ _ c1) by done.
    unfold WFaws.topic_response. by rewrite Hdev.
Qed.

Lemma get_reading_round_trip_witness :
  let d := [(lit "type", JStr (lit "get_reading"));
            (lit "command_id", JStr (lit "abc"))] in
  let now := lit "2024-01-01T00:00:05" in
  let self1 := WFaws.data_received_callback reading0 iot0 in
  (exists self',
     WFaws.handle_command toy_str now Written (JObj d) iot0 = Ret tt self' /\
     WFaws.outbox self' =
     [{| WFaws.pub_topic := lit "waterfeature8/waterfeature8-001/response";
         WFaws.pub_payload :=
           WFaws.ResponseJson
             {| WFaws.command_id := JStr (lit "abc");
                WFaws.r_device_id := lit "waterfeature8-001";
                WFaws.timestamp := now;
                WFaws.status := lit "error";
                WFaws.message := lit "No recent data available";
                WFaws.data := None |};
         WFaws.pub_qos := 1 |}]) /\
  (exists self',
     WFaws.handle_command toy_str now Written (JObj d) self1 = Ret tt self' /\
     WFaws.outbox self' =
     WFaws.outbox self1 ++
     [{| WFaws.pub_topic := lit "waterfeature8/waterfeature8-001/response";
         WFaws.pub_payload :=
           WFaws.ResponseJson
             {| WFaws.command_id := JStr (lit "abc");
                WFaws.r_device_id := lit "waterfeature8-001";
                WFaws.timestamp := now;
                WFaws.status := lit "success";
                WFaws.message := lit "Latest reading retrieved";
                WFaws.data := Some (WFaws.ReadingData reading0) |};
         WFaws.pub_qos := 1 |}]).
Proof.
  intros d now self1.
  destruct (get_reading_round_trip toy_str now Written d iot0
              (mk_is_Some _ _ eq_refl) eq_refl eq_refl) as [H1 H2].
  split; [exact (H1 eq_refl)|exact (H2 [] reading0)].
Defined.

Lemma unknown_type_is_str d s :
  (forall ty, dict_get (lit "type") d = Some (JStr ty) ->
              ty ∉ known_command_types) ->
  s ∈ known_command_types ->
  is_str (default (JStr []) (dict_get (lit "type") d)) s = false.
Proof.
  intros Hty Hs. destruct (dict_get (lit "type") d) as [v|] eqn:Hget.
  - destruct v; try done. cbn [from_option id is_str].
    apply bool_decide_eq_false_2. intros ->. by apply (Hty s).
  - cbn [from_option id is_str]. apply bool_decide_eq_false_2. intros <-.
    revert Hs. apply (bool_decide_unpack _). by vm_compute.
Qed.

(** C5.  For a command dictionary whose type is not "get_status",
    "get_reading" or "send_device_command" (or is absent, or is not a
    string), on a bridge whose MQTT client exists, [handle_command]
    publishes exactly one response, with status "error", message
    "Unknown command" and the command's [command_id], which is "unknown"
    when the key is absent. *)
Theorem unknown_command {Callback} (str_of_json : json -> pystr)
    now w d (self : WFaws.WaterFeature8IoT Callback) :
  is_Some (WFaws.mqtt_client self) ->
  (forall ty, dict_get (lit "type") d = Some (JStr ty) ->
              ty ∉ known_command_types) ->
  exists self',
    WFaws.handle_command str_of_json now w (JObj d) self = Ret tt self' /\
    WFaws.outbox self' =
    WFaws.outbox self ++
    [{| WFaws.pub_topic := WFaws.topic_response self;
        WFaws.pub_payload :=
          WFaws.ResponseJson
            {| WFaws.command_id :=
                 match dict_get (lit "command_id") d with
                 | Some v => v
                 | None => JStr (lit "unknown")
                 end;
               WFaws.r_device_id := WFaws.device_id self;
               WFaws.timestamp := now;
               WFaws.status := lit "error";
               WFaws.message := lit "Unknown command";
               WFaws.data := None |};
        WFaws.pub_qos := 1 |}].
Proof.
  intros [c Hc] Hty. rewrite handle_command_unfold.
  eexists. split; [done|]. unfold WFaws.handle_command_try.
  rewrite !(unknown_type_is_str d)
    by (done || (apply (bool_decide_unpack _); by vm_compute)).
  cbn [state_of]. unfold WFaws.publish_command_response.
  by rewrite (outbox_mqtt_publish _ _ _ c).
Qed.

Lemma unknown_command_witness :
  let now := lit "2024-01-01T00:00:05" in
  (exists self',
     WFaws.handle_command toy_str now Written
       (JObj [(lit "type", JStr (lit "frobulate"));
              (lit "command_id", JStr (lit "x"))]) iot0 = Ret tt self' /\
     WFaws.outbox self' =
     [{| WFaws.pub_topic := lit "waterfeature8/waterfeature8-001/response";
         WFaws.pub_payload :=
           WFaws.ResponseJson
             {| WFaws.command_id := JStr (lit "x");
                WFaws.r_device_id := lit "waterfeature8-001";
                WFaws.timestamp := now;
                WFaws.status := lit "error";
                WFaws.message := lit "Unknown command";
                WFaws.data := None |};
         WFaws.pub_qos := 1 |}]) /\
  (exists self',
     WFaws.handle_command toy_str now Written
       (JObj [(lit "type", JStr (lit "frobulate"))]) iot0 = Ret tt self' /\
     WFaws.outbox self' =
     [{| WFaws.pub_topic := lit "waterfeature8/waterfeature8-001/response";
         WFaws.pub_payload :=
           WFaws.ResponseJson
             {| WFaws.command_id := JStr (lit "unknown");
                WFaws.r_device_id := lit "waterfeature8-001";
                WFaws.timestamp := now;
                WFaws.status := lit "error";
                WFaws.message := lit "Unknown command";
                WFaws.data := None |};
         WFaws.pub_qos := 1 |}]).
Proof.
  intros now.
  assert (Hty : forall d0 ty,
            dict_get (lit "type") ((lit "type", JStr (lit "frobulate")) :: d0)
            = Some (JStr ty) -> ty ∉ known_command_types).
  { intros d0 ty Hget. inversion Hget; subst.
    apply (bool_decide_unpack _). by vm_compute. }
  split.
  - exact (unknown_command toy_str now Written _ iot0
             (mk_is_Some _ _ eq_refl) (Hty _)).
  - exact (unknown_command toy_str now Written _ iot0
             (mk_is_Some _ _ eq_refl) (Hty _)).
Defined.

(** C6.  [on_mqtt_message] never raises.  When the payload cannot be
    decoded it leaves the bridge as it was; when the [try] body of
    [handle_command] raises (on the command topic), the call returns
    with the state reached at the exception, in which nothing has been
    published: no response is sent in either case. *)
Theorem malformed_envelope_dropped {Callback}
    (decode_payload : list N -> option json) (str_of_json : json -> pystr)
    now w msg (self : WFaws.WaterFeature8IoT Callback) :
  (exists self',
     WFaws.on_mqtt_message decode_payload str_of_json now w msg self =
     Ret tt self') /\
  (decode_payload (WFaws.msg_payload msg) = None ->
   WFaws.on_mqtt_message decode_payload str_of_json now w msg self =
   Ret tt self) /\
  (forall command e self',
     decode_payload (WFaws.msg_payload msg) = Some command ->
     WFaws.msg_topic msg = WFaws.topic_command self ->
     WFaws.handle_command_try str_of_json now w command self = Raise e self' ->
     WFaws.on_mqtt_message decode_payload str_of_json now w msg self =
     Ret tt self' /\
     WFaws.outbox self' = WFaws.outbox self).
Proof.
  unfold WFaws.on_mqtt_message, WFaws.on_mqtt_message_try. split_and!.
  - destruct (decode_payload _); [|by eexists].
    destruct (bool_decide _); [|by eexists].
    rewrite handle_command_unfold. by eexists.
  - by intros ->.
  - intros command e self' -> Htopic Hraise.
    rewrite bool_decide_eq_true_2, handle_command_unfold, Hraise by done.
    split; [done|]. by eapply handle_command_try_raise.
Qed.

Lemma malformed_envelope_dropped_witness :
  let now := lit "2024-01-01T00:00:05" in
  let topic := lit "waterfeature8/waterfeature8-001/command" in
  WFaws.on_mqtt_message toy_decode toy_str now Written
    {| WFaws.msg_topic := topic; WFaws.msg_payload := lit "{oops" |} iot0 =
  Ret tt iot0 /\
  WFaws.handle_command_try toy_str now Written (JArr []) iot0 =
  Raise AttributeError iot0 /\
  WFaws.on_mqtt_message toy_decode toy_str now Written
    {| WFaws.msg_topic := topic; WFaws.msg_payload := lit "[]" |} iot0 =
  Ret tt iot0 /\
  WFaws.outbox iot0 = WFaws.outbox iot0.
Proof.
  intros now topic. split.
  - exact (proj1 (proj2 (malformed_envelope_dropped toy_decode toy_str now
             Written {| WFaws.msg_topic := topic;
                        WFaws.msg_payload := lit "{oops" |} iot0)) eq_refl).
  - split; [reflexivity|].
    exact (proj2 (proj2 (malformed_envelope_dropped toy_decode toy_str now
             Written {| WFaws.msg_topic := topic;
                        WFaws.msg_payload := lit "[]" |} iot0))
             (JArr []) AttributeError iot0 eq_refl eq_refl eq_refl).
Defined.

(** ** The telemetry publisher *)

Lemma wire_measurements_from (vars : dict Measurement) acc :
  NoDup (acc.*1 ++ vars.*1) ->
  fold_left
    (fun measurements '(var_name, var_data) =>
       dict_set var_name
         {| WFaws.wm_value := value var_data;
            WFaws.wm_unit := unit var_data;
            WFaws.wm_description := description var_data |} measurements)
    vars acc =
  acc ++ map (fun '(k, m) => (k, drop_raw m)) vars.
Proof.
  revert acc. induction vars as [|[k m] vars IH]; intros acc Hnd.
  - simpl. by rewrite app_nil_r.
  - cbn [fold_left map]. cbn [fmap list_fmap fst] in Hnd.
    apply NoDup_app in Hnd as (Hacc & Hdisj & Hvars).
    rewrite dict_set_fresh
      by (intros Hin; apply (Hdisj _ Hin); by left).
    rewrite IH.
    + by rewrite <- app_assoc.
    + rewrite fmap_app. cbn [fmap list_fmap fst].
      apply NoDup_cons in Hvars as [Hk Hvars].
      rewrite <- app_assoc. cbn [app]. apply NoDup_app. split_and!.
      * done.
      * intros x Hx. by apply Hdisj.
      * by apply NoDup_cons.
Qed.

Lemma wire_measurements_map (vars : dict Measurement) :
  NoDup vars.*1 ->
  WFaws.wire_measurements vars = map (fun '(k, m) => (k, drop_raw m)) vars.
Proof.
  intros Hnd. unfold WFaws.wire_measurements.
  by rewrite wire_measurements_from.
Qed.

(** C7.  For a record [data] produced by [parse_data_line] and handed
    to the bridge's subscriber [data_received_callback]: when the bridge
    is connected to the broker, exactly one message is published, on the
    telemetry topic, holding the bridge's device id, the local, epoch
    and device timestamps of [data] and, per channel and in order, the
    value, unit and description ([raw] is not there); when it is not
    connected, nothing is published and the only change of the bridge
    is the [latest_reading] slot. *)
Theorem telemetry_publish {Callback} (float_of_str : pystr -> option float)
    clk line data (self : WFaws.WaterFeature8IoT Callback) :
  parse_data_line float_of_str clk line = Some data ->
  (WFaws.connected_to_aws self = true ->
   is_Some (WFaws.mqtt_client self) ->
   WFaws.outbox (WFaws.data_received_callback data self) =
   WFaws.outbox self ++
   [{| WFaws.pub_topic := WFaws.topic_telemetry self;
       WFaws.pub_payload :=
         WFaws.TelemetryJson
           {| WFaws.tp_device_id := WFaws.device_id self;
              WFaws.tp_timestamp := local_timestamp data;
              WFaws.tp_epoch_timestamp := epoch_timestamp data;
              WFaws.tp_device_timestamp := device_timestamp data;
              WFaws.tp_measurements :=
                map (fun '(k, m) =>
                       (k, {| WFaws.wm_value := value m;
                              WFaws.wm_unit := unit m;
                              WFaws.wm_description := description m |}))
                    (variables data) |};
       WFaws.pub_qos := 1 |}]) /\
  (WFaws.connected_to_aws self = false ->
   WFaws.data_received_callback data self =
   WFaws.set_latest_reading (Some data) self /\
   WFaws.mqtt_client (WFaws.data_received_callback data self) =
   WFaws.mqtt_client self /\
   WFaws.outbox (WFaws.data_received_callback data self) =
   WFaws.outbox self).
Proof.
  intros Hparse.
  assert (Hnd : NoDup (variables data).*1).
  { unfold parse_data_line in Hparse.
    destruct (bool_decide _); [done|].
    destruct (split comma (strip line)); [done|].
    inversion Hparse; subst. apply parse_fields_NoDup. }
  unfold WFaws.data_received_callback.
  cbn [WFaws.connected_to_aws WFaws.set_latest_reading]. split.
  - intros -> [c Hc]. unfold WFaws.publish_telemetry_data.
    rewrite (outbox_mqtt_publish _ _ _ c) by done.
    by rewrite wire_measurements_map.
  - by intros ->.
Qed.

Lemma telemetry_publish_witness :
  exists data,
    parse_data_line decimal_float clock0 (lit "12:00:00,1413,x") = Some data /\
    WFaws.outbox (WFaws.data_received_callback data iot0) =
    [{| WFaws.pub_topic := lit "waterfeature8/waterfeature8-001/telemetry";
        WFaws.pub_payload :=
          WFaws.TelemetryJson
            {| WFaws.tp_device_id := lit "waterfeature8-001";
               WFaws.tp_timestamp := lit "2024-01-01T00:00:00";
               WFaws.tp_epoch_timestamp := 1704067200;
               WFaws.tp_device_timestamp := lit "12:00:00";
               WFaws.tp_measurements :=
                 map (fun '(k, m) =>
                       (k, {| WFaws.wm_value := value m;
                              WFaws.wm_unit := unit m;
                              WFaws.wm_description := description m |}))
                     (variables data) |};
        WFaws.pub_qos := 1 |}] /\
    WFaws.outbox
      (WFaws.data_received_callback data (WFaws.on_mqtt_disconnect iot0)) = [].
Proof.
  eexists. split; [reflexivity|].
  split.
  - refine (proj1 (telemetry_publish decimal_float clock0
              (lit "12:00:00,1413,x") _ iot0 eq_refl) eq_refl
              (mk_is_Some _ _ eq_refl)).
  - refine (proj2 (proj2 (proj2 (telemetry_publish decimal_float clock0
              (lit "12:00:00,1413,x") _ (WFaws.on_mqtt_disconnect iot0)
              eq_refl) eq_refl))).
Defined.

(** ** The device session *)

Lemma encode_snoc s c :
  encode (s ++ [c]) =
  match encode s, encode_char c with
  | Some bs, Some b => Some (bs ++ b)
  | _, _ => None
  end.
Proof.
  induction s as [|c' s IH]; cbn [app encode].
  - destruct (encode_char c); [|done]. by rewrite app_nil_r.
  - rewrite IH. destruct (encode_char c'), (encode s), (encode_char c);
      try done. by rewrite app_assoc.
Qed.

(** C8.  [send_command]: with no open transport it returns [False] and
    writes nothing; with an open transport and a command text that
    encodes to [bytes], a write the transport accepts appends
    [bytes] followed by the newline byte and returns [True], a write
    that raises [SerialException] returns [False]; it returns [True]
    only when the transport is open and the write succeeded. *)
Theorem send_command_result {Callback} w command
    (d : WaterFeature8 Callback) :
  (connected d = false -> send_command w command d = Ret false d) /\
  (forall c bytes,
     serial_conn d = Some c -> is_open c = true ->
     encode command = Some bytes ->
     send_command WriteSerialException command d = Ret false d /\
     send_command Written command d =
     Ret true
       (set_serial_conn
          (Some {| is_open := true;
                   written := written c ++ [bytes ++ [newline]] |}) d)) /\
  (forall d',
     send_command w command d = Ret true d' ->
     connected d = true /\ w = Written /\
     exists c bytes,
       serial_conn d = Some c /\ encode command = Some bytes /\
       serial_conn d' =
       Some {| is_open := true;
               written := written c ++ [bytes ++ [newline]] |}).
Proof.
  unfold send_command, connected. split_and!.
  - destruct (serial_conn d) as [c|]; [|done]. by intros ->.
  - intros c bytes -> Hopen Henc. rewrite Hopen. cbn [negb].
    rewrite encode_snoc, Henc. by cbn.
  - intros d'. destruct (serial_conn d) as [c|]; [|done].
    destruct (is_open c) eqn:Hopen; [|done]. cbn [negb].
    rewrite encode_snoc. destruct (encode command) as [bytes|]; [|done].
    cbn. destruct w; [|done]. intros H. inversion H; subst.
    split_and!; [done..|]. by exists c, bytes.
Qed.

Lemma send_command_result_witness :
  send_command WriteSerialException (lit "R") device0 = Ret false device0 /\
  send_command Written (lit "R") device0 =
  Ret true
    (set_serial_conn
       (Some {| is_open := true; written := [[82%N; 10%N]] |}) device0).
Proof.
  exact (proj1 (proj2 (send_command_result Written (lit "R") device0))
           {| is_open := true; written := [] |} (lit "R")
           eq_refl eq_refl eq_refl).
Defined.

(** An unencodable command text leaves [send_command] with an exception
    before any write. *)
Lemma send_command_unencodable {Callback} w command
    (d : WaterFeature8 Callback) :
  connected d = true -> encode command = None ->
  send_command w command d = Raise UnicodeEncodeError d.
Proof.
  unfold send_command, connected. destruct (serial_conn d) as [c|]; [|done].
  intros -> Henc. cbn [negb]. by rewrite encode_snoc, Henc.
Qed.

(** ** Copies of the slot *)

Section StoreFacts.

Import ObjectStore.
Implicit Types h : heap.

Lemma read_measurement_ext h h' v m :
  (forall l o, h !! l = Some o -> h' !! l = Some o) ->
  read_measurement h v = Some m -> read_measurement h' v = Some m.
Proof.
  intros Hext. destruct v as [| | | |l]; try done. cbn [read_measurement].
  destruct (h !! l) as [o|] eqn:Hl; [|done]. by rewrite (Hext _ _ Hl).
Qed.

Lemma read_items_ext h h' o ms :
  (forall l o, h !! l = Some o -> h' !! l = Some o) ->
  read_items h o = Some ms -> read_items h' o = Some ms.
Proof.
  intros Hext. revert ms. induction o as [|[k v] o IH]; intros ms; [done|].
  cbn [read_items].
  destruct (read_measurement h v) as [m|] eqn:Hm; [|done].
  rewrite (read_measurement_ext _ _ _ _ Hext Hm).
  destruct (read_items h o) as [ms'|]; [|done]. by rewrite (IH ms').
Qed.

Lemma read_object_ext h h' o r :
  (forall l o, h !! l = Some o -> h' !! l = Some o) ->
  read_object h o = Some r -> read_object h' o = Some r.
Proof.
  intros Hext. unfold read_object.
  repeat (match goal with
          | |- context [match dict_get ?k ?d with _ => _ end] =>
              destruct (dict_get k d) as [[]|]; try done
          end).
  all: cbn [read_variables]; try done.
  destruct (h !! l) as [ov|] eqn:Hl; [|done]. rewrite (Hext _ _ Hl).
  destruct (read_items h ov) as [ms|] eqn:Hms; [|done].
  by rewrite (read_items_ext _ _ _ _ Hext Hms).
Qed.

Lemma read_object_nonempty h o r : read_object h o = Some r -> o <> [].
Proof. by intros H ->. Qed.







End StoreFacts.


(** C9, as the code has it.  Two calls of [get_latest_data] with no
    sample accepted in between return references to two new dictionary
    objects, distinct from each other and from the slot's, and all three
    read as the stored record.  Whatever replaces the items of one
    returned dictionary itself (item assignment, deletion, [clear]), the
    other copy's and the slot's dictionaries stay as they were and still
    read as the stored record. *)
Theorem get_latest_data_copies (h : ObjectStore.heap) l r :
  ObjectStore.read_record h (ObjectStore.PRef l) = Some r ->
  exists c1 c2 h1 h2,
    ObjectStore.get_latest_data (Some l) h = (ObjectStore.PRef c1, h1) /\
    ObjectStore.get_latest_data (Some l) h1 = (ObjectStore.PRef c2, h2) /\
    c1 <> l /\ c2 <> l /\ c1 <> c2 /\
    ObjectStore.read_record h2 (ObjectStore.PRef c1) = Some r /\
    ObjectStore.read_record h2 (ObjectStore.PRef c2) = Some r /\
    ObjectStore.read_record h2 (ObjectStore.PRef l) = Some r /\
    forall c c' o',
      (c = c1 /\ c' = c2) \/ (c = c2 /\ c' = c1) ->
      let h3 := <[c := o']> h2 in
      h3 !! c' = h2 !! c' /\ h3 !! l = h2 !! l /\
      ObjectStore.read_record h3 (ObjectStore.PRef c') = Some r /\
      ObjectStore.read_record h3 (ObjectStore.PRef l) = Some r.
Proof.
  intros Hread. cbn [ObjectStore.read_record] in Hread.
  destruct (h !! l) as [o|] eqn:Hl; [|done].
  pose proof (lookup_lt_Some _ _ _ Hl) as Hlt.
  destruct o as [|item items]; [by apply read_object_nonempty in Hread|].
  set (o := item :: items) in *.
  exists (length h), (S (length h)), (h ++ [o]), ((h ++ [o]) ++ [o]).
  assert (Hl1 : (h ++ [o]) !! l = Some o) by by rewrite lookup_app_l.
  assert (Hext2 : forall j x, h !! j = Some x ->
                    ((h ++ [o]) ++ [o]) !! j = Some x).
  { intros j x Hj. pose proof (lookup_lt_Some _ _ _ Hj).
    rewrite !lookup_app_l by (rewrite ?length_app; simpl; lia). done. }
  assert (Hc1 : ((h ++ [o]) ++ [o]) !! length h = Some o).
  { rewrite lookup_app_l by (rewrite length_app; simpl; lia).
    by rewrite list_lookup_middle. }
  assert (Hc2 : ((h ++ [o]) ++ [o]) !! S (length h) = Some o).
  { rewrite (list_lookup_middle (h ++ [o]) [] o); [done|].
    rewrite length_app. simpl. lia. }
  pose proof (read_object_ext _ _ _ _ Hext2 Hread) as Hread2.
  split_and!.
  - unfold ObjectStore.get_latest_data. by rewrite Hl.
  - unfold ObjectStore.get_latest_data, ObjectStore.alloc. rewrite Hl1.
    subst o. do 2 f_equal. rewrite length_app. simpl. f_equal. lia.
  - lia.
  - lia.
  - lia.
  - cbn [ObjectStore.read_record]. by rewrite Hc1.
  - cbn [ObjectStore.read_record]. by rewrite Hc2.
  - cbn [ObjectStore.read_record]. by rewrite (Hext2 _ _ Hl).
  - intros c c' o' Hcc h3.
    assert (Hc : c <> c' /\ c <> l /\ length h <= c /\
                 ((h ++ [o]) ++ [o]) !! c' = Some o)
      by (destruct Hcc as [[-> ->]|[-> ->]]; split_and!; (done || lia)).
    destruct Hc as (Hne & Hnl & Hge & Hc').
    assert (Hext3 : forall j x, h !! j = Some x -> h3 !! j = Some x).
    { intros j x Hj. pose proof (lookup_lt_Some _ _ _ Hj). subst h3.
      rewrite list_lookup_insert_ne by lia. by apply Hext2. }
    pose proof (read_object_ext _ _ _ _ Hext3 Hread) as Hread3.
    assert (H3c' : h3 !! c' = Some o)
      by (subst h3; by rewrite list_lookup_insert_ne).
    assert (H3l : h3 !! l = Some o) by by apply Hext3.
    split_and!.
    + by rewrite H3c', Hc'.
    + by rewrite H3l, (Hext2 _ _ Hl).
    + cbn [ObjectStore.read_record]. by rewrite H3c'.
    + cbn [ObjectStore.read_record]. by rewrite H3l.
Qed.

Lemma get_latest_data_copies_witness :
  let '(l, h) := ObjectStore.new_record reading0 [] in
  ObjectStore.read_record h (ObjectStore.PRef l) = Some reading0 /\
  exists c1 c2 h1 h2,
    ObjectStore.get_latest_data (Some l) h = (ObjectStore.PRef c1, h1) /\
    ObjectStore.get_latest_data (Some l) h1 = (ObjectStore.PRef c2, h2) /\
    c1 <> l /\ c2 <> l /\ c1 <> c2 /\
    ObjectStore.read_record h2 (ObjectStore.PRef c1) = Some reading0 /\
    ObjectStore.read_record h2 (ObjectStore.PRef c2) = Some reading0 /\
    ObjectStore.read_record h2 (ObjectStore.PRef l) = Some reading0 /\
    forall c c' o',
      (c = c1 /\ c' = c2) \/ (c = c2 /\ c' = c1) ->
      let h3 := <[c := o']> h2 in
      h3 !! c' = h2 !! c' /\ h3 !! l = h2 !! l /\
      ObjectStore.read_record h3 (ObjectStore.PRef c') = Some reading0 /\
      ObjectStore.read_record h3 (ObjectStore.PRef l) = Some reading0.
Proof.
  destruct (ObjectStore.new_record reading0 []) as [l h] eqn:Hnew.
  vm_compute in Hnew. inversion Hnew; subst l h. clear Hnew.
  split; [reflexivity|].
  apply (get_latest_data_copies _ 3 reading0). reflexivity.
Defined.

(** C9, as claimed, fails: a mutation made through one returned copy
    reaches the slot and the other copy.  After two calls, assigning
    [copy1['variables']['EC']['raw']] changes what the second copy and
    the slot read as, because [dict.copy()] shares the nested
    dictionaries. *)
Lemma nested_mutation_reaches_slot :
  let '(l, h) := ObjectStore.new_record reading0 [] in
  let '(v1, h1) := ObjectStore.get_latest_data (Some l) h in
  let '(v2, h2) := ObjectStore.get_latest_data (Some l) h1 in
  exists c1 lv lm,
    v1 = ObjectStore.PRef c1 /\
    ObjectStore.getitem c1 (lit "variables") h2 = Some (ObjectStore.PRef lv) /\
    ObjectStore.getitem lv (lit "EC") h2 = Some (ObjectStore.PRef lm) /\
    let h3 :=
      ObjectStore.setitem lm (lit "raw") (ObjectStore.PStr (lit "tampered"))
        h2 in
    ObjectStore.read_record h2 v2 = Some reading0 /\
    ObjectStore.read_record h2 (ObjectStore.PRef l) = Some reading0 /\
    ObjectStore.read_record h3 v2 <> ObjectStore.read_record h2 v2 /\
    ObjectStore.read_record h3 (ObjectStore.PRef l) <>
      ObjectStore.read_record h2 (ObjectStore.PRef l).
Proof.
  vm_compute. exists 4, 0, 1. repeat split; discriminate.
Qed.

(** ** More on the reading parser *)

Section ParserMore.

Variable float_of_str : pystr -> option float.

(** The channel a token lands in, for every field position 1..7. *)
Lemma parse_channel clk line i token :
  1 <= i <= 7 ->
  split comma (strip line) !! i = Some token ->
  exists r,
    parse_data_line float_of_str clk line = Some r /\
    variables r !! (i - 1) =
      Some (nth (i - 1) variable_labels [],
            measurement_at float_of_str (i - 1) token) /\
    dict_get (nth (i - 1) variable_labels []) (variables r) =
      Some (measurement_at float_of_str (i - 1) token).
Proof.
  intros Hi Htok. unfold parse_data_line.
  destruct (split comma (strip line)) as [|dev_ts raw_variables]; [done|].
  destruct i as [|j]; [lia|]. simpl in Htok.
  rewrite bool_decide_eq_false_2
    by (apply lookup_lt_Some in Htok; simpl; lia).
  eexists. split; [done|]. cbn [variables].
  replace (S j - 1) with j by lia.
  assert (Hlook : parse_fields float_of_str 0 raw_variables [] !! j =
                  Some (nth j variable_labels [],
                        measurement_at float_of_str j token)).
  { rewrite parse_fields_spec, list_lookup_imap, lookup_take_lt
      by (rewrite variable_labels_length; lia).
    by rewrite Htok. }
  split; [done|].
  eapply dict_get_lookup; [apply parse_fields_NoDup|done].
Qed.

Lemma split_length sep s :
  length (split sep s) = S (length (filter (fun c => c = sep) s)).
Proof.
  induction s as [|c s IH]; [done|]. cbn [split].
  destruct (N.eqb_spec c sep) as [->|Hne].
  - rewrite filter_cons_True by done. simpl. by rewrite IH.
  - rewrite filter_cons_False by done.
    destruct (split sep s) as [|p ps] eqn:Hs; [by apply split_nonempty in Hs|].
    by rewrite <- IH.
Qed.

Lemma split_short_iff sep s : length (split sep s) < 2 <-> sep ∉ s.
Proof.
  rewrite split_length. split.
  - intros Hlen Hin.
    assert (Hf : sep ∈ filter (fun c => c = sep) s)
      by (apply list_elem_of_filter; done).
    destruct (filter _ s); [by apply elem_of_nil in Hf|simpl in Hlen; lia].
  - intros Hnin.
    destruct (filter (fun c => c = sep) s) as [|c f] eqn:Hf; [simpl; lia|].
    assert (Hc : c ∈ filter (fun c => c = sep) s) by (rewrite Hf; by left).
    apply list_elem_of_filter in Hc as [-> Hc]. done.
Qed.

(** [strip] leaves no white space at either end, so it is idempotent. *)
Lemma lstrip_head s :
  match lstrip s with [] => True | c :: _ => isspace c = false end.
Proof.
  induction s as [|c s IH]; [done|]. cbn [lstrip].
  destruct (isspace c) eqn:Hc; [done|]. by rewrite Hc.
Qed.

Lemma lstrip_fixed s :
  match s with [] => True | c :: _ => isspace c = false end ->
  lstrip s = s.
Proof. destruct s as [|c s]; [done|]. simpl. by intros ->. Qed.

Lemma lstrip_suffix s : exists w, s = w ++ lstrip s.
Proof.
  induction s as [|c s [w Hw]]; [by exists []|]. cbn [lstrip].
  destruct (isspace c); [|by exists []].
  exists (c :: w). simpl. by rewrite <- Hw.
Qed.

Lemma rstrip_prefix s : exists w, s = rstrip s ++ w.
Proof.
  destruct (lstrip_suffix (rev s)) as [w Hw]. exists (rev w).
  unfold rstrip. rewrite <- rev_app_distr, <- Hw. by rewrite rev_involutive.
Qed.

Lemma strip_strip s : strip (strip s) = strip s.
Proof.
  unfold strip.
  assert (Hhead : match rstrip (lstrip s) with
                  | [] => True | c :: _ => isspace c = false end).
  { pose proof (lstrip_head s) as Hl.
    destruct (rstrip_prefix (lstrip s)) as [w Hw].
    destruct (rstrip (lstrip s)) as [|c u]; [done|].
    rewrite Hw in Hl. done. }
  rewrite (lstrip_fixed _ Hhead).
  unfold rstrip at 1. unfold rstrip at 1. rewrite rev_involutive.
  rewrite (lstrip_fixed (lstrip (rev (lstrip s)))) by apply lstrip_head.
  done.
Qed.

End ParserMore.

(** X1.  A token at field position 1..7 that is not empty after
    trimming and that [float] accepts as [x] gives channel [i-1] the
    value [x], the channel's unit and description, and the trimmed token
    as [raw]. *)
Theorem parse_numeric_token
    (float_of_str : pystr -> option float) clk line i token x :
  1 <= i <= 7 ->
  split comma (strip line) !! i = Some token ->
  strip token <> [] ->
  float_of_str (strip token) = Some x ->
  exists r,
    parse_data_line float_of_str clk line = Some r /\
    let m := {| value := x;
                unit := nth (i - 1) variable_units [];
                description := nth (i - 1) variable_descriptions [];
                raw := strip token |} in
    variables r !! (i - 1) = Some (nth (i - 1) variable_labels [], m) /\
    dict_get (nth (i - 1) variable_labels []) (variables r) = Some m.
Proof.
  intros Hi Htok Hnb Hx.
  destruct (parse_channel float_of_str clk line i token Hi Htok)
    as (r & Hr & Hlook & Hget).
  exists r. split; [done|].
  assert (Hm : measurement_at float_of_str (i - 1) token =
               {| value := x;
                  unit := nth (i - 1) variable_units [];
                  description := nth (i - 1) variable_descriptions [];
                  raw := strip token |}).
  { unfold measurement_at. rewrite Hx. by destruct (strip token). }
  by rewrite Hm in Hlook, Hget.
Qed.

Lemma parse_numeric_token_witness :
  exists r,
    parse_data_line decimal_float clock0 (lit "12:00:05,1413, 21 ,7") = Some r /\
    let m := {| value := 21%float;
                unit := nth (2 - 1) variable_units [];
                description := nth (2 - 1) variable_descriptions [];
                raw := strip (lit " 21 ") |} in
    variables r !! (2 - 1) = Some (nth (2 - 1) variable_labels [], m) /\
    dict_get (nth (2 - 1) variable_labels []) (variables r) = Some m.
Proof.
  apply (parse_numeric_token decimal_float clock0
           (lit "12:00:05,1413, 21 ,7") 2 (lit " 21 ") 21%float);
    [lia | vm_compute; reflexivity | vm_compute; discriminate
    | vm_compute; reflexivity].
Defined.

(** X2.  The channels of a parse are the first [n] channel names, in
    their fixed order, where [n] is the number of fields after the
    device timestamp, capped at seven: fewer fields fill fewer channels
    and fields beyond the seventh are ignored. *)
Theorem parse_channel_names
    (float_of_str : pystr -> option float) clk line r :
  parse_data_line float_of_str clk line = Some r ->
  (variables r).*1 =
    take (length (split comma (strip line)) - 1) variable_labels /\
  length (variables r) = min 7 (length (split comma (strip line)) - 1).
Proof.
  unfold parse_data_line. intros H.
  destruct (bool_decide _); [done|].
  destruct (split comma (strip line)) as [|dev_ts toks]; [done|].
  inversion H; subst. cbn [variables length].
  rewrite Nat.sub_succ, Nat.sub_0_r.
  assert (Hk := parse_fields_keys float_of_str toks). split; [done|].
  rewrite <- (length_fmap fst), Hk, length_take, variable_labels_length. lia.
Qed.

Lemma parse_channel_names_witness :
  exists r,
    parse_data_line decimal_float clock0 (lit "t,1,2,3,4,5,6,7,8,9") = Some r /\
    (variables r).*1 =
      take (length (split comma (strip (lit "t,1,2,3,4,5,6,7,8,9"))) - 1)
        variable_labels /\
    length (variables r) =
      min 7 (length (split comma (strip (lit "t,1,2,3,4,5,6,7,8,9"))) - 1).
Proof.
  eexists. split; [vm_compute; reflexivity|].
  apply (parse_channel_names decimal_float clock0 (lit "t,1,2,3,4,5,6,7,8,9")).
  vm_compute; reflexivity.
Defined.

(** X3.  [parse_data_line] returns a record exactly when the trimmed
    line contains a comma. *)
Theorem parse_succeeds_iff_comma
    (float_of_str : pystr -> option float) clk line :
  is_Some (parse_data_line float_of_str clk line) <-> comma ∈ strip line.
Proof.
  unfold parse_data_line.
  destruct (decide (comma ∈ strip line)) as [Hin|Hnin].
  - split; [done|]. intros _.
    rewrite bool_decide_eq_false_2
      by (intros Hlt; by apply split_short_iff in Hlt).
    destruct (split comma (strip line)) eqn:Hs;
      [by apply split_nonempty in Hs|done].
  - rewrite bool_decide_eq_true_2 by (by apply split_short_iff).
    split; [by intros [? ?]|done].
Qed.

(** X4.  The [raw_line] a parse keeps is enough to reproduce it: parsing
    the trimmed line, and so the [raw_line] of a record, under the same
    clock gives the same record. *)
Theorem parse_raw_line_round_trip
    (float_of_str : pystr -> option float) clk line r :
  parse_data_line float_of_str clk line = Some r ->
  raw_line r = strip line /\
  parse_data_line float_of_str clk (raw_line r) = Some r.
Proof.
  intros H.
  assert (Hraw : raw_line r = strip line).
  { unfold parse_data_line in H. destruct (bool_decide _); [done|].
    destruct (split comma (strip line)); [done|]. by inversion H. }
  split; [done|]. rewrite Hraw. rewrite <- H.
  unfold parse_data_line. by rewrite strip_strip.
Qed.

Lemma parse_raw_line_round_trip_witness :
  exists r,
    parse_data_line decimal_float clock0 (lit "  12:00:05,1413,21  ") = Some r /\
    raw_line r = strip (lit "  12:00:05,1413,21  ") /\
    parse_data_line decimal_float clock0 (raw_line r) = Some r.
Proof.
  eexists. split; [vm_compute; reflexivity|].
  apply (parse_raw_line_round_trip decimal_float clock0
           (lit "  12:00:05,1413,21  ")).
  vm_compute; reflexivity.
Defined.

(** ** More on the acquisition loop *)

Section LoopMore.

Variable float_of_str : pystr -> option float.
Context {Callback : Type}.
Implicit Types st : loop_state Callback.

(** The three things a cycle can do with a line. *)
Lemma on_line_cases raw t clk st :
  on_line float_of_str raw t clk st = (st, []) \/
  (parse_data_line float_of_str clk raw = None /\
   on_line float_of_str raw t clk st =
   ({| device := device st; last_sample_time := t |}, [])) \/
  (exists r,
     parse_data_line float_of_str clk raw = Some r /\
     on_line float_of_str raw t clk st =
     ({| device := set_latest_data r (device st); last_sample_time := t |},
      fan_out (device st) r)).
Proof.
  unfold on_line. destruct (strip raw); [by left|].
  destruct (Qle_bool _ _); [|by left].
  destruct (parse_data_line _ _ _) as [r|]; [|right; by left].
  right. right. by exists r.
Qed.

Lemma run_cycles_cons_line raw t clk ps st :
  run_cycles float_of_str (Line raw t clk :: ps) st =
  let '(st1, calls) := on_line float_of_str raw t clk st in
  let '(st2, calls') := run_cycles float_of_str ps st1 in
  (st2, calls ++ calls').
Proof. cbn [run_cycles read_cycle]. by destruct (on_line _ _ _ _ _). Qed.

(** Inside a 60 second window that already holds the last accepted
    sample nothing more is accepted. *)
Lemma run_cycles_window T ps st :
  Forall (within_window T) ps ->
  (T <= last_sample_time st)%Q ->
  run_cycles float_of_str ps st = (st, []).
Proof.
  intros Hps Hlast. induction Hps as [|p ps Hp _ IH]; [done|].
  destruct p as [| |raw t clk|]; try done.
  - cbn [run_cycles read_cycle]. by rewrite IH.
  - rewrite run_cycles_cons_line.
    rewrite on_line_closed by (simpl in Hp; lra). by rewrite IH.
Qed.

End LoopMore.

(** X5.  The loop is left at the first cycle that finds [running] false
    or meets a serial error: the cycles after it change nothing and call
    no subscriber. *)
Theorem loop_stops_at_break {Callback}
    (float_of_str : pystr -> option float) ps1 p ps2
    (st : loop_state Callback) :
  p = Stopped \/ p = SerialError ->
  run_cycles float_of_str (ps1 ++ p :: ps2) st =
  run_cycles float_of_str ps1 st.
Proof.
  intros Hp. revert st. induction ps1 as [|q ps1 IH]; intros st.
  - by destruct Hp as [-> | ->].
  - cbn [app run_cycles].
    destruct (read_cycle float_of_str q st) as [[st' calls]|]; [|done].
    by rewrite IH.
Qed.

Lemma loop_stops_at_break_witness :
  run_cycles decimal_float
    ([Line (lit "12:00:00,1413,21") 1704067200 clock0] ++
     SerialError :: [Line (lit "12:01:00,1413,21") 1704067260 clock0])
    {| device := device0; last_sample_time := 0 |} =
  run_cycles decimal_float
    [Line (lit "12:00:00,1413,21") 1704067200 clock0]
    {| device := device0; last_sample_time := 0 |}.
Proof.
  apply (loop_stops_at_break decimal_float
           [Line (lit "12:00:00,1413,21") 1704067200 clock0] SerialError).
  by right.
Defined.

(** X6.  What a run of the loop does, whatever it reads: the calls on
    subscribers are the fan-outs, in order, of a list of records, each
    parsed from a line the run read; the slot ends holding the last of
    them (or what it held, if there is none); and the loop changes
    nothing else of the object, the subscriber list included. *)
Theorem read_loop_trace {Callback}
    (float_of_str : pystr -> option float) ps (st : loop_state Callback) :
  exists rs,
    (run_cycles float_of_str ps st).2 = flat_map (fan_out (device st)) rs /\
    Forall (fun r => exists clk raw,
                (clk, raw) ∈ offered ps /\
                parse_data_line float_of_str clk raw = Some r) rs /\
    latest_data (device (run_cycles float_of_str ps st).1) =
      match last rs with
      | Some r => Some r
      | None => latest_data (device st)
      end /\
    data_callbacks (device (run_cycles float_of_str ps st).1) =
      data_callbacks (device st) /\
    serial_conn (device (run_cycles float_of_str ps st).1) =
      serial_conn (device st) /\
    running (device (run_cycles float_of_str ps st).1) =
      running (device st).
Proof.
  revert st. induction ps as [|p ps IH]; intros st.
  - exists []. by split_and!.
  - destruct p as [| |raw t clk|].
    + exists []. by split_and!.
    + destruct (IH st) as (rs & Hc & Hrs & Hl & Hcb & Hs & Hr).
      exists rs. cbn [run_cycles read_cycle offered].
      destruct (run_cycles float_of_str ps st) as [st2 calls].
      by split_and!.
    + rewrite run_cycles_cons_line. cbn [offered].
      destruct (on_line_cases float_of_str raw t clk st)
        as [Hsame|[[Hnone Hadv]|(r & Hsome & Hpub)]].
      * rewrite Hsame.
        destruct (IH st) as (rs & Hc & Hrs & Hl & Hcb & Hs & Hr).
        exists rs. destruct (run_cycles float_of_str ps st) as [st2 calls].
        split_and!; try done.
        eapply Forall_impl; [exact Hrs|].
        intros r (clk' & raw' & Hin & Hp). exists clk', raw'.
        split; [by right|done].
      * rewrite Hadv.
        destruct (IH {| device := device st; last_sample_time := t |})
          as (rs & Hc & Hrs & Hl & Hcb & Hs & Hr).
        exists rs.
        destruct (run_cycles float_of_str ps _) as [st2 calls].
        split_and!; try done.
        eapply Forall_impl; [exact Hrs|].
        intros r (clk' & raw' & Hin & Hp). exists clk', raw'.
        split; [by right|done].
      * rewrite Hpub.
        destruct (IH {| device := set_latest_data r (device st);
                        last_sample_time := t |})
          as (rs & Hc & Hrs & Hl & Hcb & Hs & Hr).
        exists (r :: rs).
        destruct (run_cycles float_of_str ps _) as [st2 calls].
        cbn [fst snd device] in *. split_and!; try done.
        -- cbn [flat_map]. by rewrite Hc.
        -- constructor.
           ++ exists clk, raw. split; [by left|done].
           ++ eapply Forall_impl; [exact Hrs|].
              intros r' (clk' & raw' & Hin & Hp). exists clk', raw'.
              split; [by right|done].
        -- rewrite Hl. cbn [set_latest_data latest_data].
           destruct rs as [|r' rs']; [done|].
           change (last (r :: r' :: rs')) with (last (r' :: rs')).
           destruct (last (r' :: rs')) eqn:E; [done|].
           by apply last_None in E.
    + exists []. by split_and!.
Qed.

(** X7.  A burst of lines read within one 60 second window publishes at
    most one record, whatever the state the loop is in and however many
    of the lines are valid. *)
Theorem burst_publishes_at_most_one {Callback}
    (float_of_str : pystr -> option float) T ps
    (st : loop_state Callback) :
  Forall (within_window T) ps ->
  exists rs,
    length rs <= 1 /\
    (run_cycles float_of_str ps st).2 = flat_map (fan_out (device st)) rs.
Proof.
  intros Hps. revert st. induction Hps as [|p ps Hp Hps IH]; intros st.
  - exists []; split; [simpl; lia|done].
  - destruct p as [| |raw t clk|].
    + exists []; split; [simpl; lia|done].
    + cbn [run_cycles read_cycle]. destruct (IH st) as (rs & Hlen & Hc).
      exists rs. destruct (run_cycles float_of_str ps st). by split.
    + rewrite run_cycles_cons_line. simpl in Hp.
      destruct (on_line_cases float_of_str raw t clk st)
        as [Hsame|[[Hnone Hadv]|(r & Hsome & Hpub)]].
      * rewrite Hsame. destruct (IH st) as (rs & Hlen & Hc).
        exists rs. destruct (run_cycles float_of_str ps st). by split.
      * rewrite Hadv, (run_cycles_window _ T) by (done || (simpl; lra)).
        exists []; split; [simpl; lia|done].
      * rewrite Hpub, (run_cycles_window _ T) by (done || (simpl; lra)).
        exists [r]. split; [simpl; lia|]. cbn [snd flat_map].
        by rewrite !app_nil_r.
    + exists []; split; [simpl; lia|done].
Qed.

Lemma burst_publishes_at_most_one_witness :
  exists rs,
    length rs <= 1 /\
    (run_cycles decimal_float
       [Line (lit "12:00:00,1413,21") 1704067200 clock0;
        Line (lit "12:00:03,1414,21") 1704067203 clock0;
        Line (lit "12:00:59,1415,21") 1704067259 clock0]
       {| device := device0; last_sample_time := 0 |}).2 =
    flat_map (fan_out device0) rs.
Proof.
  apply (burst_publishes_at_most_one decimal_float 1704067200).
  repeat constructor; vm_compute; discriminate || reflexivity.
Defined.

(** X8.  A non-blank line that passes the gate but does not parse still
    becomes the last sample time: whatever line follows it less than 60
    seconds later is discarded, valid or not. *)
Theorem unparsable_line_closes_gate {Callback}
    (float_of_str : pystr -> option float) (st : loop_state Callback)
    raw1 t1 clk1 raw2 t2 clk2 :
  strip raw1 <> [] ->
  (60 <= t1 - last_sample_time st)%Q ->
  parse_data_line float_of_str clk1 raw1 = None ->
  (t2 - t1 < 60)%Q ->
  run_cycles float_of_str [Line raw1 t1 clk1; Line raw2 t2 clk2] st =
  ({| device := device st; last_sample_time := t1 |}, []).
Proof.
  intros Hnb Hgate Hnone Hclose. cbn [run_cycles read_cycle].
  rewrite on_line_open, Hnone by done.
  rewrite on_line_closed; [done|]. cbn [last_sample_time]. lra.
Qed.

Lemma unparsable_line_closes_gate_witness :
  is_Some (parse_data_line decimal_float clock0 (lit "12:00:10,1413,21")) /\
  run_cycles decimal_float
    [Line (lit "sensor warming up") 1704067200 clock0;
     Line (lit "12:00:10,1413,21") 1704067210 clock0]
    {| device := device0; last_sample_time := 0 |} =
  ({| device := device0; last_sample_time := 1704067200 |}, []).
Proof.
  split; [vm_compute; by eexists|].
  apply (unparsable_line_closes_gate decimal_float
           {| device := device0; last_sample_time := 0 |}
           (lit "sensor warming up") 1704067200 clock0
           (lit "12:00:10,1413,21") 1704067210 clock0).
  - vm_compute; discriminate.
  - vm_compute; discriminate.
  - vm_compute; reflexivity.
  - vm_compute; reflexivity.
Defined.

(** X9.  Valid lines that arrive at least 60 seconds apart, the first at
    least 60 seconds after the last accepted sample, are all published,
    in the order read, and the slot ends with the last of them. *)
Theorem spaced_lines_all_published {Callback}
    (float_of_str : pystr -> option float) lines rs
    (st : loop_state Callback) :
  spaced (last_sample_time st) lines ->
  Forall2 (fun x r => parse_data_line float_of_str x.2 x.1.1 = Some r)
    lines rs ->
  (run_cycles float_of_str (map line_cycle lines) st).2 =
    flat_map (fan_out (device st)) rs /\
  latest_data (device (run_cycles float_of_str (map line_cycle lines) st).1) =
    match last rs with
    | Some r => Some r
    | None => latest_data (device st)
    end.
Proof.
  intros Hsp Hparse. revert st Hsp.
  induction Hparse as [|[[raw t] clk] r lines rs Hp _ IH]; intros st Hsp;
    [done|].
  destruct Hsp as [Hgate Hsp]. cbn [map line_cycle]. simpl in Hp.
  rewrite run_cycles_cons_line.
  rewrite on_line_open, Hp
    by (done || by eapply parse_Some_nonblank).
  destruct (IH {| device := set_latest_data r (device st);
                  last_sample_time := t |} Hsp) as [Hc Hl].
  destruct (run_cycles float_of_str (map line_cycle lines) _) as [st2 calls].
  cbn [fst snd device] in *. split.
  - cbn [flat_map]. by rewrite Hc.
  - rewrite Hl. cbn [set_latest_data latest_data].
    destruct rs as [|r' rs']; [done|].
    change (last (r :: r' :: rs')) with (last (r' :: rs')).
    destruct (last (r' :: rs')) eqn:E; [done|].
    by apply last_None in E.
Qed.

Lemma spaced_lines_all_published_witness :
  let lines :=
    [(lit "12:00:00,1413,21", 1704067200%Q, clock0);
     (lit "12:01:00,1414,21", 1704067260%Q, clock0);
     (lit "12:03:00,1415,21", 1704067380%Q, clock0)] in
  exists r1 r2 r3,
    (run_cycles decimal_float (map line_cycle lines)
       {| device := device0; last_sample_time := 0 |}).2 =
    flat_map (fan_out device0) [r1; r2; r3] /\
    latest_data (device (run_cycles decimal_float (map line_cycle lines)
       {| device := device0; last_sample_time := 0 |}).1) = Some r3.
Proof.
  intros lines. eexists _, _, _.
  refine (spaced_lines_all_published decimal_float lines [_; _; _]
            {| device := device0; last_sample_time := 0 |} _ _).
  - repeat split; vm_compute; discriminate.
  - repeat constructor; vm_compute; reflexivity.
Defined.

(** ** Subscribers and the device session *)

Lemma set_data_callbacks_same {Callback} (d : WaterFeature8 Callback) :
  set_data_callbacks (data_callbacks d) d = d.
Proof. by destruct d. Qed.

Lemma list_remove_split {A} `{EqDecision A} (x : A) l :
  x ∈ l ->
  exists l1 l2, l = l1 ++ x :: l2 /\ (x ∉ l1) /\ list_remove x l = l1 ++ l2.
Proof.
  induction l as [|y l IH]; intros Hin; [by apply elem_of_nil in Hin|].
  cbn [list_remove]. destruct (decide (x = y)) as [->|Hne].
  - exists [], l. split_and!; [done| |done]. apply not_elem_of_nil.
  - apply elem_of_cons in Hin as [?|Hin]; [done|].
    destruct (IH Hin) as (l1 & l2 & -> & Hnin & ->).
    exists (y :: l1), l2. split_and!; [done| |done].
    apply not_elem_of_cons. done.
Qed.

Lemma list_remove_snoc_fresh {A} `{EqDecision A} (x : A) l :
  x ∉ l -> list_remove x (l ++ [x]) = l.
Proof.
  induction l as [|y l IH]; intros Hnin; cbn [app list_remove].
  - by rewrite decide_True.
  - apply not_elem_of_cons in Hnin as [Hne Hnin].
    rewrite decide_False by done. by rewrite IH.
Qed.

Lemma encode_ascii s :
  Forall (fun c => (c < 128)%N) s -> encode s = Some s.
Proof.
  induction 1 as [|c s Hc _ IH]; [done|]. cbn [encode]. rewrite IH.
  unfold encode_char. by rewrite (proj2 (N.ltb_lt c 128) Hc).
Qed.

(** X10.  [remove_data_callback] takes out the first registration of the
    callback and nothing else; for a callback that is not registered it
    changes nothing (and raises nothing). *)
Theorem remove_data_callback_first {Callback} `{EqDecision Callback}
    (callback : Callback) (d : WaterFeature8 Callback) :
  (callback ∉ data_callbacks d -> remove_data_callback callback d = d) /\
  (callback ∈ data_callbacks d ->
   exists l1 l2,
     data_callbacks d = l1 ++ callback :: l2 /\
     (callback ∉ l1) /\
     data_callbacks (remove_data_callback callback d) = l1 ++ l2).
Proof.
  unfold remove_data_callback. split; intros Hin.
  - by rewrite bool_decide_eq_false_2.
  - rewrite bool_decide_eq_true_2 by done.
    destruct (list_remove_split callback _ Hin) as (l1 & l2 & H1 & H2 & H3).
    exists l1, l2. by split_and!.
Qed.

Lemma remove_data_callback_first_witness :
  remove_data_callback 7 device0 = device0 /\
  exists l1 l2,
    data_callbacks (add_data_callback 0 device0) = l1 ++ 0 :: l2 /\
    (0 ∉ l1) /\
    data_callbacks (remove_data_callback 0 (add_data_callback 0 device0)) =
    l1 ++ l2.
Proof.
  split.
  - apply (proj1 (remove_data_callback_first 7 device0)).
    apply (bool_decide_unpack _). by vm_compute.
  - apply (proj2 (remove_data_callback_first 0 (add_data_callback 0 device0))).
    apply (bool_decide_unpack _). by vm_compute.
Defined.

(** X11.  A callback added with [add_data_callback] is called last in
    every fan-out, after the subscribers already there; removing a
    callback that was not registered before it was added gives the
    object back as it was. *)
Theorem add_data_callback_round_trip {Callback} `{EqDecision Callback}
    (callback : Callback) (d : WaterFeature8 Callback) r :
  fan_out (add_data_callback callback d) r = fan_out d r ++ [(callback, r)] /\
  (callback ∉ data_callbacks d ->
   remove_data_callback callback (add_data_callback callback d) = d).
Proof.
  split.
  - unfold fan_out, add_data_callback. cbn [data_callbacks set_data_callbacks].
    by rewrite map_app.
  - intros Hnin. unfold remove_data_callback, add_data_callback.
    cbn [data_callbacks set_data_callbacks].
    rewrite bool_decide_eq_true_2 by (apply elem_of_app; right; by left).
    rewrite list_remove_snoc_fresh by done.
    by destruct d.
Qed.

Lemma add_data_callback_round_trip_witness :
  fan_out (add_data_callback 5 device0) reading0 =
    fan_out device0 reading0 ++ [(5, reading0)] /\
  remove_data_callback 5 (add_data_callback 5 device0) = device0.
Proof.
  destruct (add_data_callback_round_trip 5 device0 reading0) as [H1 H2].
  split; [exact H1|]. apply H2.
  apply (bool_decide_unpack _). by vm_compute.
Defined.

(** X12.  [disconnect] can be repeated: a second call changes nothing.
    After it the transport is not open and the running flag is cleared,
    while the subscribers, the latest reading and what was written to
    the port are kept. *)
Theorem disconnect_idempotent {Callback} (d : WaterFeature8 Callback) :
  disconnect (disconnect d) = disconnect d /\
  connected (disconnect d) = false /\
  running (disconnect d) = false /\
  data_callbacks (disconnect d) = data_callbacks d /\
  latest_data (disconnect d) = latest_data d /\
  (written <$> serial_conn (disconnect d)) = (written <$> serial_conn d).
Proof.
  unfold disconnect, connected. cbn [serial_conn set_running].
  destruct (serial_conn d) as [[[|] wr]|] eqn:Hc;
    cbn [is_open serial_conn set_serial_conn set_running running
         data_callbacks latest_data written fmap option_fmap option_map];
    rewrite ?Hc; cbn [is_open]; done.
Qed.

Lemma connected_disconnect {Callback} (d : WaterFeature8 Callback) :
  connected (disconnect d) = false.
Proof.
  unfold disconnect, connected. cbn [serial_conn set_running].
  destruct (serial_conn d) as [[[|] wr]|] eqn:Hc;
    cbn [serial_conn set_serial_conn set_running is_open]; rewrite ?Hc; done.
Qed.

(** X13.  On a disconnected object [send_command] returns [False]
    without writing, [start_continuous_reading] returns [False] without
    setting the running flag, and [get_device_info] reports
    "disconnected". *)
Theorem disconnected_refuses {Callback} w command
    (d : WaterFeature8 Callback) :
  send_command w command (disconnect d) = Ret false (disconnect d) /\
  start_continuous_reading (disconnect d) = (false, disconnect d) /\
  di_status (get_device_info (disconnect d)) = lit "disconnected".
Proof.
  pose proof (connected_disconnect d) as Hconn.
  split_and!.
  - unfold send_command. unfold connected in Hconn.
    destruct (serial_conn (disconnect d)) as [c|]; [|done]. by rewrite Hconn.
  - unfold start_continuous_reading. by rewrite Hconn.
  - unfold get_device_info. cbn [di_status]. by rewrite Hconn.
Qed.

(** X14.  After a [connect] that succeeds the object is connected,
    [get_device_info] reports "connected", reading can be started, and
    an ASCII command is written to the new port byte for byte, followed
    by the newline. *)
Theorem connect_then_send {Callback} command
    (d : WaterFeature8 Callback) :
  Forall (fun c => (c < 128)%N) command ->
  let d1 := (connect Opened d).2 in
  (connect Opened d).1 = true /\
  connected d1 = true /\
  di_status (get_device_info d1) = lit "connected" /\
  start_continuous_reading d1 = (true, set_running true d1) /\
  send_command Written command d1 =
  Ret true
    (set_serial_conn
       (Some {| is_open := true; written := [command ++ [newline]] |}) d1).
Proof.
  intros Hascii d1. split_and!; try done.
  unfold send_command. subst d1.
  cbn [connect snd serial_conn set_serial_conn is_open negb written].
  rewrite encode_ascii; [done|].
  apply Forall_app. split; [done|]. by repeat constructor.
Qed.

Lemma connect_then_send_witness :
  let d1 := (connect Opened (new_device (lit "/dev/ttyUSB0") : WaterFeature8 nat)).2 in
  send_command Written (lit "Cal,mid,7.00") d1 =
  Ret true
    (set_serial_conn
       (Some {| is_open := true;
                written := [lit "Cal,mid,7.00" ++ [newline]] |}) d1).
Proof.
  intros d1.
  refine (proj2 (proj2 (proj2 (proj2
    (connect_then_send (lit "Cal,mid,7.00")
       (new_device (lit "/dev/ttyUSB0") : WaterFeature8 nat) _))))).
  apply (bool_decide_unpack _). by vm_compute.
Defined.

Lemma catalogue_lookup {Callback} (d : WaterFeature8 Callback) j :
  j < 7 ->
  di_variables (get_device_info d) !! j =
  Some {| vi_name := nth j variable_labels [];
          vi_unit := nth j variable_units [];
          vi_description := nth j variable_descriptions [] |}.
Proof.
  intros Hj. unfold get_device_info. cbn [di_variables].
  do 7 (destruct j as [|j]; [vm_compute; reflexivity|]). lia.
Qed.

(** X15.  The catalogue of [get_device_info] and the parser agree: every
    channel of a parsed record is listed in the catalogue under the same
    name with the unit and the description the record gives it. *)
Theorem catalogue_matches_parser {Callback}
    (float_of_str : pystr -> option float) clk line r
    (d : WaterFeature8 Callback) k m :
  parse_data_line float_of_str clk line = Some r ->
  (k, m) ∈ variables r ->
  {| vi_name := k; vi_unit := unit m; vi_description := description m |}
  ∈ di_variables (get_device_info d).
Proof.
  unfold parse_data_line. intros H Hin.
  destruct (bool_decide _); [done|].
  destruct (split comma (strip line)) as [|dev_ts toks]; [done|].
  inversion H; subst. cbn [variables] in Hin.
  rewrite parse_fields_spec in Hin.
  apply elem_of_lookup_imap in Hin as (j & tok & Heq & Hj).
  inversion Heq; subst.
  assert (Hlt : j < 7).
  { apply lookup_lt_Some in Hj. rewrite length_take in Hj.
    rewrite variable_labels_length in Hj. lia. }
  cbn [measurement_at unit description].
  apply list_elem_of_lookup. exists j. by apply catalogue_lookup.
Qed.

Lemma catalogue_matches_parser_witness :
  exists r m,
    parse_data_line decimal_float clock0 (lit "12:00:05,1413,21") = Some r /\
    (lit "RTD_EC", m) ∈ variables r /\
    {| vi_name := lit "RTD_EC"; vi_unit := unit m;
       vi_description := description m |}
    ∈ di_variables (get_device_info device0).
Proof.
  eexists _, _. split; [vm_compute; reflexivity|].
  assert (Hin : forall x y : pystr * Measurement, y ∈ [x; y])
    by (intros; right; by left).
  split; [vm_compute; apply Hin|].
  eapply (catalogue_matches_parser decimal_float clock0
            (lit "12:00:05,1413,21") _ device0).
  - vm_compute; reflexivity.
  - vm_compute; apply Hin.
Defined.

(** ** More on the bridge *)

Section BridgeMore.

Context {Callback : Type}.
Variable str_of_json : json -> pystr.
Implicit Types self : WFaws.WaterFeature8IoT Callback.

Lemma set_waterfeature_device_same self :
  WFaws.set_waterfeature_device (WFaws.waterfeature_device self) self = self.
Proof. by destruct self. Qed.

Lemma mqtt_publish_cases topic p self :
  WFaws.outbox (WFaws.mqtt_publish topic p self) = WFaws.outbox self \/
  WFaws.outbox (WFaws.mqtt_publish topic p self) =
  WFaws.outbox self ++
  [{| WFaws.pub_topic := topic; WFaws.pub_payload := p;
      WFaws.pub_qos := 1 |}].
Proof.
  unfold WFaws.mqtt_publish, WFaws.outbox.
  destruct (WFaws.mqtt_client self) eqn:E; [by right|left].
  by rewrite E.
Qed.

Lemma mqtt_publish_frame topic p self :
  WFaws.device_id (WFaws.mqtt_publish topic p self) = WFaws.device_id self /\
  WFaws.waterfeature_device (WFaws.mqtt_publish topic p self) =
    WFaws.waterfeature_device self /\
  WFaws.connected_to_aws (WFaws.mqtt_publish topic p self) =
    WFaws.connected_to_aws self /\
  WFaws.latest_reading (WFaws.mqtt_publish topic p self) =
    WFaws.latest_reading self.
Proof. unfold WFaws.mqtt_publish. by destruct (WFaws.mqtt_client self). Qed.

Lemma waterfeature_device_mqtt_publish topic p self :
  WFaws.waterfeature_device (WFaws.mqtt_publish topic p self) =
  WFaws.waterfeature_device self.
Proof. apply mqtt_publish_frame. Qed.

Lemma send_command_frame w command (d : WaterFeature8 Callback) :
  latest_data (state_of (send_command w command d)) = latest_data d /\
  data_callbacks (state_of (send_command w command d)) = data_callbacks d /\
  running (state_of (send_command w command d)) = running d.
Proof.
  unfold send_command. destruct (serial_conn d) as [c|]; [|done].
  destruct (is_open c); [|done]. cbn [negb].
  destruct (encode _); [|done]. by destruct w.
Qed.

(** The response to [get_reading] once a record is in the slot. *)
Lemma get_reading_success now w d self r :
  is_Some (WFaws.mqtt_client self) ->
  dict_get (lit "type") d = Some (JStr (lit "get_reading")) ->
  WFaws.latest_reading self = Some r ->
  exists self',
    WFaws.handle_command str_of_json now w (JObj d) self = Ret tt self' /\
    WFaws.outbox self' =
    WFaws.outbox self ++
    [{| WFaws.pub_topic := WFaws.topic_response self;
        WFaws.pub_payload :=
          WFaws.ResponseJson
            {| WFaws.command_id :=
                 match dict_get (lit "command_id") d with
                 | Some v => v
                 | None => JStr (lit "unknown")
                 end;
               WFaws.r_device_id := WFaws.device_id self;
               WFaws.timestamp := now;
               WFaws.status := lit "success";
               WFaws.message := lit "Latest reading retrieved";
               WFaws.data := Some (WFaws.ReadingData r) |};
        WFaws.pub_qos := 1 |}].
Proof.
  intros [c Hc] Hty Hlatest. rewrite handle_command_unfold.
  eexists. split; [done|]. unfold WFaws.handle_command_try. rewrite Hty.
  cbn [from_option id is_str]. rewrite bool_decide_eq_false_2 by done.
  rewrite bool_decide_eq_true_2 by done.
  unfold WFaws.get_latest_data. rewrite Hlatest. cbn [state_of].
  unfold WFaws.publish_command_response.
  rewrite (outbox_mqtt_publish _ _ _ c) by done.
  by destruct (dict_get (lit "command_id") d).
Qed.

End BridgeMore.

(** X16.  A [get_status] command, on a bridge whose MQTT client exists,
    always gets one "success" response: it carries the device
    information and the latest reading, which may be absent. *)
Theorem get_status_response {Callback} (str_of_json : json -> pystr)
    now w d (self : WFaws.WaterFeature8IoT Callback) :
  is_Some (WFaws.mqtt_client self) ->
  dict_get (lit "type") d = Some (JStr (lit "get_status")) ->
  exists self',
    WFaws.handle_command str_of_json now w (JObj d) self = Ret tt self' /\
    WFaws.outbox self' =
    WFaws.outbox self ++
    [{| WFaws.pub_topic := WFaws.topic_response self;
        WFaws.pub_payload :=
          WFaws.ResponseJson
            {| WFaws.command_id :=
                 match dict_get (lit "command_id") d with
                 | Some v => v
                 | None => JStr (lit "unknown")
                 end;
               WFaws.r_device_id := WFaws.device_id self;
               WFaws.timestamp := now;
               WFaws.status := lit "success";
               WFaws.message := lit "Device status retrieved";
               WFaws.data :=
                 Some (WFaws.StatusData
                         (get_device_info (WFaws.waterfeature_device self))
                         (WFaws.latest_reading self)) |};
        WFaws.pub_qos := 1 |}].
Proof.
  intros [c Hc] Hty. rewrite handle_command_unfold.
  eexists. split; [done|]. unfold WFaws.handle_command_try. rewrite Hty.
  cbn [from_option id is_str]. rewrite bool_decide_eq_true_2 by done.
  cbn [state_of]. unfold WFaws.publish_command_response.
  rewrite (outbox_mqtt_publish _ _ _ c) by done.
  by destruct (dict_get (lit "command_id") d).
Qed.

Lemma get_status_response_witness :
  exists self',
    WFaws.handle_command toy_str (lit "2024-01-01T00:00:05") Written
      (JObj [(lit "type", JStr (lit "get_status"))]) iot0 = Ret tt self' /\
    WFaws.outbox self' =
    [{| WFaws.pub_topic := lit "waterfeature8/waterfeature8-001/response";
        WFaws.pub_payload :=
          WFaws.ResponseJson
            {| WFaws.command_id := JStr (lit "unknown");
               WFaws.r_device_id := lit "waterfeature8-001";
               WFaws.timestamp := lit "2024-01-01T00:00:05";
               WFaws.status := lit "success";
               WFaws.message := lit "Device status retrieved";
               WFaws.data :=
                 Some (WFaws.StatusData (get_device_info device0) None) |};
        WFaws.pub_qos := 1 |}].
Proof.
  exact (get_status_response toy_str (lit "2024-01-01T00:00:05") Written
           [(lit "type", JStr (lit "get_status"))] iot0
           (mk_is_Some _ _ eq_refl) eq_refl).
Defined.

(** X17.  A [send_device_command] whose text can be encoded, with the
    serial transport open and accepting the write: the text and a
    newline are written to the port, and one "success" response names
    the command sent.  A missing [device_command] sends the empty
    text. *)
Theorem send_device_command_forwarded {Callback}
    (str_of_json : json -> pystr) now d
    (self : WFaws.WaterFeature8IoT Callback) c bytes :
  is_Some (WFaws.mqtt_client self) ->
  dict_get (lit "type") d = Some (JStr (lit "send_device_command")) ->
  serial_conn (WFaws.waterfeature_device self) = Some c ->
  is_open c = true ->
  let text :=
    WFaws.fstring_field str_of_json
      (default (JStr []) (dict_get (lit "device_command") d)) in
  encode text = Some bytes ->
  exists self',
    WFaws.handle_command str_of_json now Written (JObj d) self =
      Ret tt self' /\
    serial_conn (WFaws.waterfeature_device self') =
      Some {| is_open := true;
              written := written c ++ [bytes ++ [newline]] |} /\
    WFaws.outbox self' =
    WFaws.outbox self ++
    [{| WFaws.pub_topic := WFaws.topic_response self;
        WFaws.pub_payload :=
          WFaws.ResponseJson
            {| WFaws.command_id :=
                 match dict_get (lit "command_id") d with
                 | Some v => v
                 | None => JStr (lit "unknown")
                 end;
               WFaws.r_device_id := WFaws.device_id self;
               WFaws.timestamp := now;
               WFaws.status := lit "success";
               WFaws.message := lit "Command sent to device: " ++ text;
               WFaws.data := None |};
        WFaws.pub_qos := 1 |}].
Proof.
  intros [cl Hcl] Hty Hconn Hopen text Henc. rewrite handle_command_unfold.
  eexists. split; [done|]. unfold WFaws.handle_command_try. rewrite Hty.
  cbn [from_option id is_str]. rewrite !bool_decide_eq_false_2 by done.
  rewrite bool_decide_eq_true_2 by done. fold text.
  unfold send_command. rewrite Hconn, Hopen. cbn [negb].
  rewrite encode_snoc, Henc. change (encode_char newline) with (Some [newline]).
  cbn [state_of]. unfold WFaws.publish_command_response. split.
  - by rewrite waterfeature_device_mqtt_publish.
  - rewrite (outbox_mqtt_publish _ _ _ cl) by done.
    by destruct (dict_get (lit "command_id") d).
Qed.

Lemma send_device_command_forwarded_witness :
  exists self',
    WFaws.handle_command toy_str (lit "2024-01-01T00:00:05") Written
      (JObj [(lit "type", JStr (lit "send_device_command"));
             (lit "command_id", JStr (lit "c7"));
             (lit "device_command", JStr (lit "R"))]) iot0 = Ret tt self' /\
    serial_conn (WFaws.waterfeature_device self') =
      Some {| is_open := true; written := [] ++ [lit "R" ++ [newline]] |} /\
    WFaws.outbox self' =
    WFaws.outbox iot0 ++
    [{| WFaws.pub_topic := WFaws.topic_response iot0;
        WFaws.pub_payload :=
          WFaws.ResponseJson
            {| WFaws.command_id := JStr (lit "c7");
               WFaws.r_device_id := lit "waterfeature8-001";
               WFaws.timestamp := lit "2024-01-01T00:00:05";
               WFaws.status := lit "success";
               WFaws.message := lit "Command sent to device: " ++ lit "R";
               WFaws.data := None |};
        WFaws.pub_qos := 1 |}].
Proof.
  exact (send_device_command_forwarded toy_str (lit "2024-01-01T00:00:05")
           [(lit "type", JStr (lit "send_device_command"));
            (lit "command_id", JStr (lit "c7"));
            (lit "device_command", JStr (lit "R"))] iot0
           {| is_open := true; written := [] |} (lit "R")
           (mk_is_Some _ _ eq_refl) eq_refl eq_refl eq_refl eq_refl).
Defined.

(** X18.  A [send_device_command] that cannot be delivered, because the
    serial transport is not open or because the write raises
    [SerialException], gets one "error" response with the message
    "Failed to send command to device", and the device object is left
    as it was. *)
Theorem send_device_command_failed {Callback}
    (str_of_json : json -> pystr) now w d
    (self : WFaws.WaterFeature8IoT Callback) :
  is_Some (WFaws.mqtt_client self) ->
  dict_get (lit "type") d = Some (JStr (lit "send_device_command")) ->
  connected (WFaws.waterfeature_device self) = false \/
  (w = WriteSerialException /\
   is_Some (encode (WFaws.fstring_field str_of_json
                      (default (JStr []) (dict_get (lit "device_command") d))))) ->
  exists self',
    WFaws.handle_command str_of_json now w (JObj d) self = Ret tt self' /\
    WFaws.waterfeature_device self' = WFaws.waterfeature_device self /\
    WFaws.outbox self' =
    WFaws.outbox self ++
    [{| WFaws.pub_topic := WFaws.topic_response self;
        WFaws.pub_payload :=
          WFaws.ResponseJson
            {| WFaws.command_id :=
                 match dict_get (lit "command_id") d with
                 | Some v => v
                 | None => JStr (lit "unknown")
                 end;
               WFaws.r_device_id := WFaws.device_id self;
               WFaws.timestamp := now;
               WFaws.status := lit "error";
               WFaws.message := lit "Failed to send command to device";
               WFaws.data := None |};
        WFaws.pub_qos := 1 |}].
Proof.
  intros [cl Hcl] Hty Hfail. rewrite handle_command_unfold.
  eexists. split; [done|]. unfold WFaws.handle_command_try.
  set (text := WFaws.fstring_field str_of_json _) in *.
  assert (Hsend : send_command w text (WFaws.waterfeature_device self) =
                  Ret false (WFaws.waterfeature_device self)).
  { unfold send_command, connected in *.
    destruct Hfail as [Hclosed|[-> [bytes Henc]]].
    - destruct (serial_conn _) as [c|]; [|done]. by rewrite Hclosed.
    - destruct (serial_conn _) as [c|]; [|done].
      destruct (is_open c); [|done]. cbn [negb].
      rewrite encode_snoc, Henc. done. }
  rewrite Hty, Hsend.
  cbn [from_option id is_str]. rewrite !bool_decide_eq_false_2 by done.
  rewrite bool_decide_eq_true_2 by done. cbn [state_of].
  rewrite set_waterfeature_device_same.
  unfold WFaws.publish_command_response. split.
  - by rewrite waterfeature_device_mqtt_publish.
  - rewrite (outbox_mqtt_publish _ _ _ cl) by done.
    by destruct (dict_get (lit "command_id") d).
Qed.

Lemma send_device_command_failed_witness :
  exists self',
    WFaws.handle_command toy_str (lit "2024-01-01T00:00:05")
      WriteSerialException
      (JObj [(lit "type", JStr (lit "send_device_command"));
             (lit "device_command", JStr (lit "R"))]) iot0 = Ret tt self' /\
    WFaws.waterfeature_device self' = device0 /\
    WFaws.outbox self' =
    WFaws.outbox iot0 ++
    [{| WFaws.pub_topic := WFaws.topic_response iot0;
        WFaws.pub_payload :=
          WFaws.ResponseJson
            {| WFaws.command_id := JStr (lit "unknown");
               WFaws.r_device_id := lit "waterfeature8-001";
               WFaws.timestamp := lit "2024-01-01T00:00:05";
               WFaws.status := lit "error";
               WFaws.message := lit "Failed to send command to device";
               WFaws.data := None |};
        WFaws.pub_qos := 1 |}].
Proof.
  exact (send_device_command_failed toy_str (lit "2024-01-01T00:00:05")
           WriteSerialException
           [(lit "type", JStr (lit "send_device_command"));
            (lit "device_command", JStr (lit "R"))] iot0
           (mk_is_Some _ _ eq_refl) eq_refl
           (or_intror (conj eq_refl (mk_is_Some _ _ eq_refl)))).
Defined.

(** X19.  A [send_device_command] whose text cannot be encoded (it
    holds a surrogate code point), with the transport open: the encoding
    raises inside [send_command], [handle_command] catches the
    exception, and the bridge is left as it was, with no response
    published and nothing written. *)
Theorem send_device_command_unencodable {Callback}
    (str_of_json : json -> pystr) now w d
    (self : WFaws.WaterFeature8IoT Callback) :
  dict_get (lit "type") d = Some (JStr (lit "send_device_command")) ->
  connected (WFaws.waterfeature_device self) = true ->
  encode (WFaws.fstring_field str_of_json
            (default (JStr []) (dict_get (lit "device_command") d))) = None ->
  WFaws.handle_command_try str_of_json now w (JObj d) self =
    Raise UnicodeEncodeError self /\
  WFaws.handle_command str_of_json now w (JObj d) self = Ret tt self.
Proof.
  intros Hty Hconn Henc.
  assert (Htry : WFaws.handle_command_try str_of_json now w (JObj d) self =
                 Raise UnicodeEncodeError self).
  { unfold WFaws.handle_command_try.
    set (text := WFaws.fstring_field str_of_json _) in *.
    rewrite (send_command_unencodable w text _ Hconn Henc), Hty.
    cbn [from_option id is_str]. rewrite !bool_decide_eq_false_2 by done.
    rewrite bool_decide_eq_true_2 by done.
    by rewrite set_waterfeature_device_same. }
  split; [done|]. by rewrite handle_command_unfold, Htry.
Qed.

Lemma send_device_command_unencodable_witness :
  let d := [(lit "type", JStr (lit "send_device_command"));
            (lit "device_command", JStr [82%N; 55296%N])] in
  WFaws.handle_command_try toy_str (lit "2024-01-01T00:00:05") Written
    (JObj d) iot0 = Raise UnicodeEncodeError iot0 /\
  WFaws.handle_command toy_str (lit "2024-01-01T00:00:05") Written
    (JObj d) iot0 = Ret tt iot0.
Proof.
  intros d.
  exact (send_device_command_unencodable toy_str (lit "2024-01-01T00:00:05")
           Written d iot0 eq_refl eq_refl eq_refl).
Defined.

(** X20.  Whatever the command and the state, [handle_command] returns,
    and it publishes nothing or exactly one message; that message is on
    the response topic with QoS 1, carries the bridge's device id and
    the time of handling, and has status "success" or "error".  The
    latest reading, the connection flag and the device's subscribers and
    slot are never changed by a command. *)
Theorem handle_command_frame {Callback} (str_of_json : json -> pystr)
    now w command (self : WFaws.WaterFeature8IoT Callback) :
  exists self',
    WFaws.handle_command str_of_json now w command self = Ret tt self' /\
    (WFaws.outbox self' = WFaws.outbox self \/
     exists resp,
       WFaws.outbox self' =
       WFaws.outbox self ++
       [{| WFaws.pub_topic := WFaws.topic_response self;
           WFaws.pub_payload := WFaws.ResponseJson resp;
           WFaws.pub_qos := 1 |}] /\
       WFaws.r_device_id resp = WFaws.device_id self /\
       WFaws.timestamp resp = now /\
       (WFaws.status resp = lit "success" \/
        WFaws.status resp = lit "error")) /\
    WFaws.latest_reading self' = WFaws.latest_reading self /\
    WFaws.connected_to_aws self' = WFaws.connected_to_aws self /\
    WFaws.device_id self' = WFaws.device_id self /\
    latest_data (WFaws.waterfeature_device self') =
      latest_data (WFaws.waterfeature_device self) /\
    data_callbacks (WFaws.waterfeature_device self') =
      data_callbacks (WFaws.waterfeature_device self).
Proof.
  rewrite handle_command_unfold. eexists. split; [done|].
  assert (Hpub : forall resp dev,
    WFaws.r_device_id resp = WFaws.device_id self ->
    WFaws.timestamp resp = now ->
    (WFaws.status resp = lit "success" \/ WFaws.status resp = lit "error") ->
    latest_data dev = latest_data (WFaws.waterfeature_device self) ->
    data_callbacks dev = data_callbacks (WFaws.waterfeature_device self) ->
    let self' := WFaws.publish_command_response resp
                   (WFaws.set_waterfeature_device dev self) in
    (WFaws.outbox self' = WFaws.outbox self \/
     exists resp,
       WFaws.outbox self' =
       WFaws.outbox self ++
       [{| WFaws.pub_topic := WFaws.topic_response self;
           WFaws.pub_payload := WFaws.ResponseJson resp;
           WFaws.pub_qos := 1 |}] /\
       WFaws.r_device_id resp = WFaws.device_id self /\
       WFaws.timestamp resp = now /\
       (WFaws.status resp = lit "success" \/
        WFaws.status resp = lit "error")) /\
    WFaws.latest_reading self' = WFaws.latest_reading self /\
    WFaws.connected_to_aws self' = WFaws.connected_to_aws self /\
    WFaws.device_id self' = WFaws.device_id self /\
    latest_data (WFaws.waterfeature_device self') =
      latest_data (WFaws.waterfeature_device self) /\
    data_callbacks (WFaws.waterfeature_device self') =
      data_callbacks (WFaws.waterfeature_device self)).
  { intros resp dev Hid Hts Hst Hl Hcb self'. subst self'.
    unfold WFaws.publish_command_response.
    destruct (mqtt_publish_frame
                (WFaws.topic_response (WFaws.set_waterfeature_device dev self))
                (WFaws.ResponseJson resp)
                (WFaws.set_waterfeature_device dev self))
      as (H1 & H2 & H3 & H4).
    rewrite H1, H2, H3, H4. split_and!; try done.
    destruct (mqtt_publish_cases
                (WFaws.topic_response (WFaws.set_waterfeature_device dev self))
                (WFaws.ResponseJson resp)
                (WFaws.set_waterfeature_device dev self)) as [->| ->].
    - by left.
    - right. by exists resp. }
  assert (Hsame : forall resp,
    WFaws.publish_command_response resp self =
    WFaws.publish_command_response resp
      (WFaws.set_waterfeature_device (WFaws.waterfeature_device self) self))
    by (intros; by rewrite set_waterfeature_device_same).
  unfold WFaws.handle_command_try.
  destruct command as [| | | | | |d]; try (cbn [state_of]; by auto 10).
  destruct (is_str _ (lit "get_status")).
  { cbn [state_of]. rewrite Hsame. apply Hpub; auto. }
  destruct (is_str _ (lit "get_reading")).
  { destruct (WFaws.get_latest_data self);
      cbn [state_of]; rewrite Hsame; apply Hpub; auto. }
  destruct (is_str _ (lit "send_device_command")).
  - destruct (send_command_frame w
                (WFaws.fstring_field str_of_json
                   (default (JStr []) (dict_get (lit "device_command") d)))
                (WFaws.waterfeature_device self)) as (Hl & Hcb & _).
    destruct (send_command _ _ _) as [[|] dev|e dev]; cbn [state_of] in *.
    + apply Hpub; auto.
    + apply Hpub; auto.
    + split_and!; auto.
  - cbn [state_of]. rewrite Hsame. apply Hpub; auto.
Qed.

(** X21.  A message that arrives on any topic other than the bridge's
    command topic changes nothing and gets no response, whether or not
    its payload can be decoded. *)
Theorem message_on_other_topic_ignored {Callback}
    (decode_payload : list N -> option json) (str_of_json : json -> pystr)
    now w msg (self : WFaws.WaterFeature8IoT Callback) :
  WFaws.msg_topic msg <> WFaws.topic_command self ->
  WFaws.on_mqtt_message decode_payload str_of_json now w msg self =
  Ret tt self.
Proof.
  intros Htopic. unfold WFaws.on_mqtt_message, WFaws.on_mqtt_message_try.
  destruct (decode_payload _); [|done].
  by rewrite bool_decide_eq_false_2.
Qed.

Lemma message_on_other_topic_ignored_witness :
  WFaws.on_mqtt_message toy_decode toy_str (lit "2024-01-01T00:00:05") Written
    {| WFaws.msg_topic := lit "waterfeature8/waterfeature8-002/command";
       WFaws.msg_payload := lit "[]" |} iot0 =
  Ret tt iot0.
Proof.
  apply (message_on_other_topic_ignored toy_decode toy_str).
  vm_compute; discriminate.
Defined.

(** X22.  [on_mqtt_connect] with result code 0, on a bridge whose client
    exists: the bridge is marked connected, the command topic is
    subscribed, and one status message "online" with the device
    information is published.  With any other result code the bridge is
    marked not connected and nothing is subscribed or published. *)
Theorem on_mqtt_connect_result {Callback} now rc
    (self : WFaws.WaterFeature8IoT Callback) c :
  WFaws.mqtt_client self = Some c ->
  (rc = 0%Z ->
   WFaws.connected_to_aws (WFaws.on_mqtt_connect now rc self) = true /\
   WFaws.mqtt_client (WFaws.on_mqtt_connect now rc self) =
   Some {| WFaws.published :=
             WFaws.published c ++
             [{| WFaws.pub_topic := WFaws.topic_status self;
                 WFaws.pub_payload :=
                   WFaws.StatusJson
                     {| WFaws.sp_device_id := WFaws.device_id self;
                        WFaws.sp_status := lit "online";
                        WFaws.sp_timestamp := now;
                        WFaws.sp_device_info :=
                          get_device_info (WFaws.waterfeature_device self) |};
                 WFaws.pub_qos := 1 |}];
           WFaws.subscriptions :=
             WFaws.subscriptions c ++ [WFaws.topic_command self] |}) /\
  (rc <> 0%Z ->
   WFaws.connected_to_aws (WFaws.on_mqtt_connect now rc self) = false /\
   WFaws.mqtt_client (WFaws.on_mqtt_connect now rc self) = Some c).
Proof.
  intros Hc. unfold WFaws.on_mqtt_connect. split.
  - intros ->. cbn [Z.eqb]. cbn [WFaws.set_connected_to_aws WFaws.mqtt_client].
    rewrite Hc. unfold WFaws.publish_device_status, WFaws.mqtt_publish.
    by cbn.
  - intros Hrc. rewrite (proj2 (Z.eqb_neq rc 0) Hrc). by cbn.
Qed.

Lemma on_mqtt_connect_result_witness :
  WFaws.connected_to_aws
    (WFaws.on_mqtt_connect (lit "2024-01-01T00:00:00") 0
       (WFaws.on_mqtt_disconnect iot0)) = true /\
  WFaws.connected_to_aws
    (WFaws.on_mqtt_connect (lit "2024-01-01T00:00:00") 5 iot0) = false.
Proof.
  split.
  - exact (proj1 (proj1 (on_mqtt_connect_result (lit "2024-01-01T00:00:00") 0
             (WFaws.on_mqtt_disconnect iot0) _ eq_refl) eq_refl)).
  - refine (proj1 (proj2 (on_mqtt_connect_result (lit "2024-01-01T00:00:00") 5
             iot0 _ eq_refl) _)). discriminate.
Defined.

(** X23.  A record received while the bridge is not connected to the
    broker is not published as telemetry, but it is kept: a later
    [get_reading] command is answered with it. *)
Theorem sample_while_disconnected_retained {Callback}
    (str_of_json : json -> pystr) now w d data
    (self : WFaws.WaterFeature8IoT Callback) :
  is_Some (WFaws.mqtt_client self) ->
  dict_get (lit "type") d = Some (JStr (lit "get_reading")) ->
  let self1 :=
    WFaws.data_received_callback data (WFaws.on_mqtt_disconnect self) in
  WFaws.outbox self1 = WFaws.outbox self /\
  exists self',
    WFaws.handle_command str_of_json now w (JObj d) self1 = Ret tt self' /\
    WFaws.outbox self' =
    WFaws.outbox self ++
    [{| WFaws.pub_topic := WFaws.topic_response self;
        WFaws.pub_payload :=
          WFaws.ResponseJson
            {| WFaws.command_id :=
                 match dict_get (lit "command_id") d with
                 | Some v => v
                 | None => JStr (lit "unknown")
                 end;
               WFaws.r_device_id := WFaws.device_id self;
               WFaws.timestamp := now;
               WFaws.status := lit "success";
               WFaws.message := lit "Latest reading retrieved";
               WFaws.data := Some (WFaws.ReadingData data) |};
        WFaws.pub_qos := 1 |}].
Proof.
  intros Hc Hty self1. split; [done|].
  apply (get_reading_success str_of_json now w d self1 data); done.
Qed.

Lemma sample_while_disconnected_retained_witness :
  let d := [(lit "type", JStr (lit "get_reading"))] in
  let self1 :=
    WFaws.data_received_callback reading0 (WFaws.on_mqtt_disconnect iot0) in
  WFaws.outbox self1 = [] /\
  exists self',
    WFaws.handle_command toy_str (lit "2024-01-01T00:02:00") Written
      (JObj d) self1 = Ret tt self' /\
    WFaws.outbox self' =
    [{| WFaws.pub_topic := lit "waterfeature8/waterfeature8-001/response";
        WFaws.pub_payload :=
          WFaws.ResponseJson
            {| WFaws.command_id := JStr (lit "unknown");
               WFaws.r_device_id := lit "waterfeature8-001";
               WFaws.timestamp := lit "2024-01-01T00:02:00";
               WFaws.status := lit "success";
               WFaws.message := lit "Latest reading retrieved";
               WFaws.data := Some (WFaws.ReadingData reading0) |};
        WFaws.pub_qos := 1 |}].
Proof.
  intros d self1.
  exact (sample_while_disconnected_retained toy_str
           (lit "2024-01-01T00:02:00") Written d reading0 iot0
           (mk_is_Some _ _ eq_refl) eq_refl).
Defined.

(** X24.  While the bridge stays connected, the records handed to
    [data_received_callback] are published one message each on the
    telemetry topic, in the order received, and the bridge keeps the
    last of them as its latest reading. *)
Theorem telemetry_in_order {Callback} samples
    (self : WFaws.WaterFeature8IoT Callback) :
  WFaws.connected_to_aws self = true ->
  is_Some (WFaws.mqtt_client self) ->
  let self' :=
    fold_left (fun s r => WFaws.data_received_callback r s) samples self in
  WFaws.outbox self' = WFaws.outbox self ++ map (telemetry_of self) samples /\
  WFaws.latest_reading self' =
    match last samples with
    | Some r => Some r
    | None => WFaws.latest_reading self
    end.
Proof.
  intros Hconn Hc self'. subst self'.
  induction samples as [|r samples IH] using rev_ind.
  - cbn. by rewrite app_nil_r.
  - rewrite fold_left_app, map_app, last_snoc. cbn [fold_left map].
    destruct IH as [IHo _].
    set (s := fold_left _ samples self) in *.
    assert (Hs : WFaws.device_id s = WFaws.device_id self /\
                 is_Some (WFaws.mqtt_client s))
      by (split; [|apply data_received_callbacks_fields; done];
          apply data_received_callbacks_fields).
    destruct Hs as [Hid [c Hcs]].
    assert (Hcs' : WFaws.connected_to_aws s = true).
    { subst s. clear IHo Hid Hcs. revert self Hconn Hc.
      induction samples as [|x xs IHxs]; intros self Hconn Hc; [done|].
      cbn [fold_left]. apply IHxs.
      - unfold WFaws.data_received_callback.
        cbn [WFaws.connected_to_aws WFaws.set_latest_reading].
        rewrite Hconn. unfold WFaws.publish_telemetry_data.
        by rewrite (proj1 (proj2 (proj2 (mqtt_publish_frame _ _ _)))).
      - by apply data_received_callback_fields. }
    split; [|apply data_received_callback_fields].
    unfold WFaws.data_received_callback.
    cbn [WFaws.connected_to_aws WFaws.set_latest_reading].
    rewrite Hcs'. unfold WFaws.publish_telemetry_data.
    rewrite (outbox_mqtt_publish _ _ _ c) by done.
    change (WFaws.outbox (WFaws.set_latest_reading (Some r) s))
      with (WFaws.outbox s).
    rewrite IHo, <- app_assoc. do 2 f_equal.
    unfold telemetry_of, WFaws.topic_telemetry.
    cbn [WFaws.device_id WFaws.set_latest_reading]. by rewrite Hid.
Qed.

Lemma telemetry_in_order_witness :
  exists r2,
    parse_data_line decimal_float clock0 (lit "12:01:00,1414,22") = Some r2 /\
    WFaws.outbox
      (fold_left (fun s r => WFaws.data_received_callback r s)
         [reading0; r2] iot0) =
    [telemetry_of iot0 reading0; telemetry_of iot0 r2] /\
    WFaws.latest_reading
      (fold_left (fun s r => WFaws.data_received_callback r s)
         [reading0; r2] iot0) = Some r2.
Proof.
  eexists. split; [vm_compute; reflexivity|].
  exact (telemetry_in_order [reading0; _] iot0 eq_refl
           (mk_is_Some _ _ eq_refl)).
Defined.

(** ** More on copies of the slot *)

Lemma dict_get_set_eq {V} k (v : V) d : dict_get k (dict_set k v d) = Some v.
Proof.
  induction d as [|[k' v'] d IH]; cbn [dict_set dict_get].
  - by rewrite decide_True.
  - destruct (decide (k = k')) as [->|Hne]; cbn [dict_get].
    + by rewrite decide_True.
    + by rewrite decide_False.
Qed.

(** X25.  The copy [get_latest_data] returns is a new object, and under
    every key it holds the very value the slot's dictionary holds, a
    reference included: the nested dictionaries are shared.  So an item
    assigned through a reference taken from the copy is seen through the
    slot. *)
Theorem copy_shares_items (h : ObjectStore.heap) l item items :
  h !! l = Some (item :: items) ->
  exists c h',
    ObjectStore.get_latest_data (Some l) h = (ObjectStore.PRef c, h') /\
    c <> l /\
    length h' = S (length h) /\
    (forall j, j < length h -> h' !! j = h !! j) /\
    (forall k, ObjectStore.getitem c k h' = ObjectStore.getitem l k h') /\
    (forall k l2 o2 k2 v,
       ObjectStore.getitem c k h' = Some (ObjectStore.PRef l2) ->
       h' !! l2 = Some o2 ->
       l2 <> l ->
       let h'' := ObjectStore.setitem l2 k2 v h' in
       ObjectStore.getitem l k h'' = Some (ObjectStore.PRef l2) /\
       ObjectStore.getitem l2 k2 h'' = Some v).
Proof.
  intros Hl. pose proof (lookup_lt_Some _ _ _ Hl) as Hlt.
  exists (length h), (h ++ [item :: items]).
  assert (Hc : (h ++ [item :: items]) !! length h = Some (item :: items))
    by by rewrite list_lookup_middle.
  assert (Hl' : (h ++ [item :: items]) !! l = Some (item :: items))
    by by rewrite lookup_app_l.
  assert (Hshare : forall k,
            ObjectStore.getitem (length h) k (h ++ [item :: items]) =
            ObjectStore.getitem l k (h ++ [item :: items]))
    by (intros k; unfold ObjectStore.getitem; by rewrite Hc, Hl').
  split_and!.
  - unfold ObjectStore.get_latest_data. by rewrite Hl.
  - lia.
  - rewrite length_app. simpl. lia.
  - intros j Hj. by rewrite lookup_app_l.
  - done.
  - intros k l2 o2 k2 v Hk Hl2 Hne h''. subst h''.
    unfold ObjectStore.setitem. rewrite Hl2.
    pose proof (lookup_lt_Some _ _ _ Hl2) as Hlt2.
    rewrite Hshare in Hk. unfold ObjectStore.getitem in *.
    rewrite list_lookup_insert_ne by done.
    rewrite list_lookup_insert_eq by done.
    split; [done|]. apply dict_get_set_eq.
Qed.

Lemma copy_shares_items_witness :
  exists c h',
    ObjectStore.get_latest_data (Some 3)
      (ObjectStore.new_record reading0 []).2 = (ObjectStore.PRef c, h') /\
    c <> 3 /\
    (forall k, ObjectStore.getitem c k h' = ObjectStore.getitem 3 k h').
Proof.
  destruct (ObjectStore.new_record reading0 []) as [l h] eqn:Hnew.
  vm_compute in Hnew. inversion Hnew; subst l h. clear Hnew.
  cbn [snd].
  edestruct copy_shares_items as (c & h' & H1 & H2 & _ & _ & H3 & _);
    [|exists c, h'; split_and!; [exact H1|exact H2|exact H3]].
  reflexivity.
Defined.



Lemma parse_succeeds_iff_comma_witness :
  is_Some (parse_data_line decimal_float clock0 (lit " 12:00:05,1413 ")) /\
  ~ is_Some (parse_data_line decimal_float clock0 (lit "no fields here")).
Proof.
  split.
  - apply (parse_succeeds_iff_comma decimal_float clock0).
    apply (bool_decide_unpack _). by vm_compute.
  - intros H.
    apply (parse_succeeds_iff_comma decimal_float clock0) in H.
    revert H. apply (bool_decide_unpack _). by vm_compute.
Defined.
